(** * The translation request handler ([src/lambda_function.py])

    A shallow embedding of [validate_input] and [lambda_handler] together
    with the fragment of the Python runtime they rely on: truthiness, the
    [in] operator, subscripting, [str.strip], [json.dumps],
    [datetime.isoformat], exceptions and [try]/[except].

    Python values are restricted to the JSON-shaped ones (the values
    [json.loads] produces and [json.dumps] accepts).  Two library functions
    are parameters of the development: the JSON decoder [json.loads] and the
    float formatter used by [json.dumps].  The translation provider and the
    clock are part of the [world] the handler runs in. *)

From Stdlib Require Import List ZArith NArith Bool Ascii String Lia.
From Stdlib Require Import DecimalString SpecFloat.
Import ListNotations.

Set Implicit Arguments.
Set Warnings "-register-all".

(** ** Python strings *)

(** A Python [str] is a sequence of Unicode code points. *)
Definition pystr := list N.

(** [u "abc"] is the [str] literal ['abc'] (Latin-1 source text). *)
Definition u (s : string) : pystr := map N_of_ascii (list_ascii_of_string s).

Fixpoint str_eqb (a b : pystr) : bool :=
  match a, b with
  | [], [] => true
  | x :: a', y :: b' => (x =? y)%N && str_eqb a' b'
  | _, _ => false
  end.

(** [Py_UNICODE_ISSPACE]: the code points removed by [str.strip()]. *)
Definition isspace (c : N) : bool :=
  ((9 <=? c) && (c <=? 13) || (28 <=? c) && (c <=? 32)
   || (c =? 133) || (c =? 160) || (c =? 5760)
   || (8192 <=? c) && (c <=? 8202)
   || (c =? 8232) || (c =? 8233) || (c =? 8239) || (c =? 8287)
   || (c =? 12288))%N.

Fixpoint lstrip (s : pystr) : pystr :=
  match s with
  | [] => []
  | c :: r => if isspace c then lstrip r else s
  end.

Definition rstrip (s : pystr) : pystr := rev (lstrip (rev s)).

(** [s.strip()] *)
Definition strip (s : pystr) : pystr := rstrip (lstrip s).

Fixpoint startswith (s p : pystr) : bool :=
  match p, s with
  | [], _ => true
  | x :: p', y :: s' => (x =? y)%N && startswith s' p'
  | _ :: _, [] => false
  end.

(** [p in s] for two strings: the substring test. *)
Fixpoint substring_of (p s : pystr) : bool :=
  startswith s p ||
  match s with
  | [] => false
  | _ :: s' => substring_of p s'
  end.

(** ** Python values *)

(** The JSON-shaped values.  A [dict] keeps its items in insertion order;
    keys are strings and occur once, and a lookup takes the first item with
    the key. *)
Inductive pyval : Type :=
| PNone
| PBool (b : bool)
| PInt (z : Z)
| PFloat (f : spec_float)
| PStr (s : pystr)
| PList (l : list pyval)
| PDict (d : list (pystr * pyval)).

(** [bool(v)] *)
Definition truthy (v : pyval) : bool :=
  match v with
  | PNone => false
  | PBool b => b
  | PInt z => negb (z =? 0)%Z
  | PFloat (S754_zero _) => false
  | PFloat _ => true
  | PStr [] => false
  | PStr _ => true
  | PList [] => false
  | PList _ => true
  | PDict [] => false
  | PDict _ => true
  end.

(** [isinstance(v, str)] *)
Definition isinstance_str (v : pyval) : bool :=
  match v with PStr _ => true | _ => false end.

Fixpoint lookup (k : pystr) (d : list (pystr * pyval)) : option pyval :=
  match d with
  | [] => None
  | (k', v) :: d' => if str_eqb k k' then Some v else lookup k d'
  end.

(** [type(v).__name__] *)
Definition type_name (v : pyval) : pystr :=
  match v with
  | PNone => u "NoneType"
  | PBool _ => u "bool"
  | PInt _ => u "int"
  | PFloat _ => u "float"
  | PStr _ => u "str"
  | PList _ => u "list"
  | PDict _ => u "dict"
  end.

(** ** Exceptions *)

(** The exception classes the handler tells apart, and every other
    subclass of [Exception] under its name. *)
Inductive exc_class : Type :=
| UnsupportedLanguagePairException
| InvalidRequestException
| JSONDecodeError
| KeyError
| TypeError
| AttributeError
| OtherException (name : pystr).

(** An exception instance: its class and [str(e)]. *)
Record exc : Type := mkExc { exc_type : exc_class; exc_str : pystr }.

Inductive outcome (A : Type) : Type :=
| Return (a : A)
| Raise (e : exc).

Arguments Return {A} a.
Arguments Raise {A} e.

Definition obind {A B} (c : outcome A) (k : A -> outcome B) : outcome B :=
  match c with
  | Return a => k a
  | Raise e => Raise e
  end.

Notation "x <~ c ;; k" := (obind c (fun x => k))
  (at level 61, c at next level, right associativity).

(** [k in v] with [k] a string.  Scalars do not support membership tests. *)
Definition contains (k : pystr) (v : pyval) : outcome bool :=
  match v with
  | PDict d => Return (match lookup k d with Some _ => true | None => false end)
  | PStr s => Return (substring_of k s)
  | PList l =>
      Return (existsb (fun x => match x with PStr s => str_eqb k s | _ => false end) l)
  | _ =>
      Raise (mkExc TypeError
               (u "argument of type '" ++ type_name v ++ u "' is not iterable"))
  end.

(** [v[k]] with [k] a string literal of the program (no quote to escape in
    the [KeyError] text).  The [TypeError] texts are CPython 3.9's. *)
Definition getitem (v : pyval) (k : pystr) : outcome pyval :=
  match v with
  | PDict d =>
      match lookup k d with
      | Some x => Return x
      | None => Raise (mkExc KeyError (u "'" ++ k ++ u "'"))
      end
  | PStr _ => Raise (mkExc TypeError (u "string indices must be integers"))
  | PList _ =>
      Raise (mkExc TypeError (u "list indices must be integers or slices, not str"))
  | _ =>
      Raise (mkExc TypeError
               (u "'" ++ type_name v ++ u "' object is not subscriptable"))
  end.

Definition no_attribute (v : pyval) (attr : string) : exc :=
  mkExc AttributeError
    (u "'" ++ type_name v ++ u "' object has no attribute '" ++ u attr ++ u "'").

(** [v.strip()] *)
Definition py_strip (v : pyval) : outcome pyval :=
  match v with
  | PStr s => Return (PStr (strip s))
  | _ => Raise (no_attribute v "strip")
  end.

(** [v.get(k, default)] *)
Definition py_get (v : pyval) (k : pystr) (default : pyval) : outcome pyval :=
  match v with
  | PDict d =>
      Return (match lookup k d with Some x => x | None => default end)
  | _ => Raise (no_attribute v "get")
  end.

(** ** Decimal and hexadecimal text *)

(** The [k] low decimal digits of [n], most significant first: ["%0kd"]
    for [n < 10^k]. *)
Fixpoint zero_padded (k : nat) (n : N) : pystr :=
  match k with
  | O => []
  | S k' => zero_padded k' (n / 10) ++ [48 + n mod 10]%N
  end.

Definition hex_digit (d : N) : N := (if d <? 10 then 48 + d else 87 + d)%N.

(** ["%04x"] for [n < 65536] *)
Definition hex4 (n : N) : pystr :=
  [hex_digit (n / 4096 mod 16); hex_digit (n / 256 mod 16);
   hex_digit (n / 16 mod 16); hex_digit (n mod 16)]%N.

(** [str(z)] for an [int] *)
Definition int_str (z : Z) : pystr := u (NilZero.string_of_int (Z.to_int z)).

(** ** [datetime] *)

Record datetime : Type := mkDatetime {
  year : N; month : N; day : N;
  hour : N; minute : N; second : N; microsecond : N
}.

Definition is_leap (y : N) : bool :=
  ((y mod 4 =? 0) && (negb (y mod 100 =? 0) || (y mod 400 =? 0)))%N.

Definition days_in_month (y m : N) : N :=
  (if m =? 2 then (if is_leap y then 29 else 28)
   else if (m =? 4) || (m =? 6) || (m =? 9) || (m =? 11) then 30
   else 31)%N.

(** The field ranges every [datetime] object satisfies. *)
Definition valid_datetime (t : datetime) : bool :=
  ((1 <=? year t) && (year t <=? 9999)
   && (1 <=? month t) && (month t <=? 12)
   && (1 <=? day t) && (day t <=? days_in_month (year t) (month t))
   && (hour t <? 24) && (minute t <? 60) && (second t <? 60)
   && (microsecond t <? 1000000))%N.

(** [t.isoformat()] for a naive [datetime]:
    [YYYY-MM-DDTHH:MM:SS], followed by [.ffffff] when the microsecond is
    not zero. *)
Definition isoformat (t : datetime) : pystr :=
  zero_padded 4 (year t) ++ u "-" ++ zero_padded 2 (month t) ++ u "-"
  ++ zero_padded 2 (day t) ++ u "T" ++ zero_padded 2 (hour t) ++ u ":"
  ++ zero_padded 2 (minute t) ++ u ":" ++ zero_padded 2 (second t)
  ++ (if (microsecond t =? 0)%N then []
      else u "." ++ zero_padded 6 (microsecond t)).

(** Reading a run of decimal digits. *)
Fixpoint read_digits (acc : N) (s : pystr) : option N :=
  match s with
  | [] => Some acc
  | c :: r =>
      if ((48 <=? c) && (c <=? 57))%N
      then read_digits (10 * acc + (c - 48))%N r
      else None
  end.

Definition number (s : pystr) : option N :=
  match s with [] => None | _ => read_digits 0 s end.

Definition obind' {A B} (c : option A) (k : A -> option B) : option B :=
  match c with Some a => k a | None => None end.

Notation "'let?' x ':=' c 'in' k" := (obind' c (fun x => k))
  (at level 10, x pattern, c at level 100, k at level 200).

(** A fixed-width decimal field at the head of [s]. *)
Definition field (k : nat) (s : pystr) : option (N * pystr) :=
  if (k <=? List.length s)%nat
  then let? n := number (firstn k s) in Some (n, skipn k s)
  else None.

(** The character [c] at the head of [s]. *)
Definition expect (c : N) (s : pystr) : option pystr :=
  match s with
  | x :: r => if (x =? c)%N then Some r else None
  | [] => None
  end.

Definition any_char (s : pystr) : option pystr :=
  match s with _ :: r => Some r | [] => None end.

(** [datetime.fromisoformat] on the texts [isoformat] writes for a naive
    [datetime]: fixed-width fields, any one character between date and
    time, an optional six-digit fraction, and the range checks of the
    [datetime] constructor. *)
Definition fromisoformat (s : pystr) : option datetime :=
  let? (y, s) := field 4 s in
  let? s := expect 45 s in
  let? (m, s) := field 2 s in
  let? s := expect 45 s in
  let? (d, s) := field 2 s in
  let? s := any_char s in
  let? (h, s) := field 2 s in
  let? s := expect 58 s in
  let? (n, s) := field 2 s in
  let? s := expect 58 s in
  let? (sec, s) := field 2 s in
  let? us :=
    match s with
    | [] => Some 0%N
    | _ => let? s := expect 46 s in
           let? (f, s) := field 6 s in
           match s with [] => Some f | _ => None end
    end in
  let t := mkDatetime y m d h n sec us in
  if valid_datetime t then Some t else None.

(** ** [json.dumps] *)

(** One character of [py_encode_basestring_ascii]: the short escapes,
    printable ASCII as it is, and [\uXXXX] for the rest, with a surrogate
    pair above the basic plane. *)
Definition escape_char (c : N) : pystr :=
  (if c =? 34 then [92; 34]
   else if c =? 92 then [92; 92]
   else if c =? 10 then [92; 110]
   else if c =? 13 then [92; 114]
   else if c =? 9 then [92; 116]
   else if c =? 12 then [92; 102]
   else if c =? 8 then [92; 98]
   else if (32 <=? c) && (c <=? 126) then [c]
   else if c <? 65536 then [92; 117] ++ hex4 c
   else
     let n := c - 65536 in
     [92; 117] ++ hex4 (N.lor 55296 (N.land (N.shiftr n 10) 1023))
     ++ [92; 117] ++ hex4 (N.lor 56320 (N.land n 1023)))%N.

Definition encode_basestring_ascii (s : pystr) : pystr :=
  [34%N] ++ flat_map escape_char s ++ [34%N].

(** The two library functions the development leaves open. *)
Class Runtime : Type := {
  (** [json.loads] on a [str]: the decoded value, or the exception raised. *)
  json_loads : pystr -> outcome pyval;
  (** The text [json.dumps] writes for a [float]. *)
  floatstr : spec_float -> pystr
}.

Section Handler.

Context {RT : Runtime}.

(** [json.dumps(v)] with the default options: [ensure_ascii], the
    separators [', '] and [': '], items in insertion order. *)
Fixpoint json_dumps (v : pyval) : pystr :=
  match v with
  | PNone => u "null"
  | PBool true => u "true"
  | PBool false => u "false"
  | PInt z => int_str z
  | PFloat f => floatstr f
  | PStr s => encode_basestring_ascii s
  | PList l =>
      u "[" ++
      (fix items (l : list pyval) : pystr :=
         match l with
         | [] => []
         | x :: r =>
             json_dumps x ++ match r with [] => [] | _ => u ", " ++ items r end
         end) l
      ++ u "]"
  | PDict d =>
      u "{" ++
      (fix items (d : list (pystr * pyval)) : pystr :=
         match d with
         | [] => []
         | (k, x) :: r =>
             encode_basestring_ascii k ++ u ": " ++ json_dumps x
             ++ match r with [] => [] | _ => u ", " ++ items r end
         end) d
      ++ u "}"
  end.

(** ** The response envelope *)

(** The [dict] the handler returns: ['statusCode'], ['headers'] (on
    success only) and ['body']. *)
Record envelope : Type := mkEnvelope {
  statusCode : Z;
  headers : option (list (pystr * pystr));
  body : pystr
}.

(** [{'statusCode': code, 'body': json.dumps(payload)}] *)
Definition error_envelope (code : Z) (payload : list (pystr * pyval)) : envelope :=
  mkEnvelope code None (json_dumps (PDict payload)).

(** ** [validate_input] *)

Definition required_fields : list pystr := [u "text"; u "target_language"].

(** The loop over [required_fields]: the early [return] of the first
    missing field, or [None] when the loop runs to its end. *)
Fixpoint check_required_fields (fields : list pystr) (body : pyval)
  : outcome (option (bool * option envelope)) :=
  match fields with
  | [] => Return None
  | field :: rest =>
      present <~ contains field body ;;
      if negb present then
        Return (Some (false, Some (error_envelope 400
          [(u "error", PStr (u "Missing required field: " ++ field))])))
      else check_required_fields rest body
  end.

Definition validate_input (body : pyval) : outcome (bool * option envelope) :=
  if negb (truthy body) then
    Return (false, Some (error_envelope 400
      [(u "error", PStr (u "Request body is empty"))]))
  else
    missing <~ check_required_fields required_fields body ;;
    match missing with
    | Some r => Return r
    | None =>
        text <~ getitem body (u "text") ;;
        blank <~ (if negb (isinstance_str text) then Return true
                  else text' <~ getitem body (u "text") ;;
                       stripped <~ py_strip text' ;;
                       Return (negb (truthy stripped))) ;;
        if (blank : bool) then
          Return (false, Some (error_envelope 400
            [(u "error", PStr (u "Text field must be a non-empty string"))]))
        else Return (true, None)
    end.

(** ** The world of an invocation *)

Inductive level : Type := INFO | WARNING | ERROR.

(** The parts of an f-string: literal text and interpolated values. *)
Inductive fragment : Type :=
| Lit (s : string)
| Val (v : pyval).

Record log_record : Type := mkLog {
  log_level : level;
  log_message : list fragment;
  exc_info : bool
}.

(** What the handler reads and writes outside its arguments: the clock
    (the successive readings of [datetime.utcnow()]), the translation
    client ([Text], [SourceLanguageCode], [TargetLanguageCode] to the reply
    or the exception raised) and the records handed to the logger. *)
Record world : Type := mkWorld {
  clock : nat -> datetime;
  reads : nat;
  translate_text : pyval -> pyval -> pyval -> outcome pyval;
  logged : list log_record
}.

(** Computations that may raise, in a world. *)
Definition M (A : Type) : Type := world -> outcome A * world.

Definition ret {A} (a : A) : M A := fun w => (Return a, w).

Definition bind {A B} (c : M A) (k : A -> M B) : M B :=
  fun w =>
    match c w with
    | (Return a, w') => k a w'
    | (Raise e, w') => (Raise e, w')
    end.

Definition lift {A} (o : outcome A) : M A := fun w => (o, w).

(** [try: c except Exception as e: h e] *)
Definition try_except {A} (c : M A) (h : exc -> M A) : M A :=
  fun w =>
    match c w with
    | (Return a, w') => (Return a, w')
    | (Raise e, w') => h e w'
    end.

Notation "x <- c ;; k" := (bind c (fun x => k))
  (at level 61, c at next level, right associativity).
Notation "c ;; k" := (bind c (fun _ => k))
  (at level 61, right associativity).

Definition tick (w : world) : world :=
  mkWorld (clock w) (S (reads w)) (translate_text w) (logged w).

Definition record (r : log_record) (w : world) : world :=
  mkWorld (clock w) (reads w) (translate_text w) (logged w ++ [r]).

(** [datetime.utcnow()] *)
Definition utcnow : M datetime :=
  fun w => (Return (clock w (reads w)), tick w).

Definition logger (l : level) (info : bool) (msg : list fragment) : M unit :=
  fun w => (Return tt, record (mkLog l msg info) w).

Definition logger_info := logger INFO false.
Definition logger_warning := logger WARNING false.

(** [translate.translate_text(Text=.., SourceLanguageCode=..,
    TargetLanguageCode=..)] *)
Definition call_translate_text (text source target : pyval) : M pyval :=
  fun w => (translate_text w text source target, w).

(** ** [lambda_handler] *)

(** The invocation context of the hosting environment.  The handler is
    called with [None] or with an object that carries the request id. *)
Record lambda_context : Type := mkContext { aws_request_id : pystr }.

(** [json.loads(event['body']) if isinstance(event['body'], str)
    else event['body']] *)
Definition request_body (event : pyval) : outcome pyval :=
  raw <~ getitem event (u "body") ;;
  match raw with
  | PStr s => json_loads s
  | _ => getitem event (u "body")
  end.

(** The body of the [try] statement. *)
Definition try_block (event : pyval) : M (option envelope) :=
  body <- lift (request_body event) ;;
  v <- lift (validate_input body) ;;
  let '(is_valid, error_response) := v in
  if negb is_valid then
    logger_warning [Lit "Invalid input received: "; Val body] ;;
    ret error_response
  else
    text <- lift (getitem body (u "text")) ;;
    target_language <- lift (getitem body (u "target_language")) ;;
    source_language <- lift (py_get body (u "source_language") (PStr (u "auto"))) ;;
    logger_info [Lit "Translating text from "; Val source_language;
                 Lit " to "; Val target_language] ;;
    response <- call_translate_text text source_language target_language ;;
    translated <- lift (getitem response (u "TranslatedText")) ;;
    source <- lift (getitem response (u "SourceLanguageCode")) ;;
    target <- lift (getitem response (u "TargetLanguageCode")) ;;
    now <- utcnow ;;
    let result :=
      mkEnvelope 200
        (Some [(u "Content-Type", u "application/json");
               (u "Access-Control-Allow-Origin", u "*")])
        (json_dumps (PDict
           [(u "translated_text", translated);
            (u "detected_source_language", source);
            (u "target_language", target);
            (u "timestamp", PStr (isoformat now))])) in
    logger_info [Lit "Translation completed successfully"] ;;
    ret (Some result).

(** The [except] clauses, tried in the order they are written. *)
Definition except_clauses (context : option lambda_context) (e : exc)
  : M (option envelope) :=
  match exc_type e with
  | UnsupportedLanguagePairException =>
      logger ERROR false [Lit "Unsupported language pair: "; Val (PStr (exc_str e))] ;;
      ret (Some (error_envelope 400
        [(u "error", PStr (u "Unsupported language pair"));
         (u "detail", PStr (exc_str e))]))
  | InvalidRequestException =>
      logger ERROR false [Lit "Invalid request: "; Val (PStr (exc_str e))] ;;
      ret (Some (error_envelope 400 [(u "error", PStr (exc_str e))]))
  | JSONDecodeError =>
      logger ERROR false [Lit "Invalid JSON in request: "; Val (PStr (exc_str e))] ;;
      ret (Some (error_envelope 400
        [(u "error", PStr (u "Invalid JSON in request body"))]))
  | _ =>
      logger ERROR true [Lit "Unexpected error: "; Val (PStr (exc_str e))] ;;
      ret (Some (error_envelope 500
        [(u "error", PStr (u "Internal server error"));
         (u "request_id",
          match context with
          | Some c => PStr (aws_request_id c)
          | None => PNone
          end)]))
  end.

Definition lambda_handler (event : pyval) (context : option lambda_context)
  : M (option envelope) :=
  now <- utcnow ;;
  logger_info [Lit "Processing translation request at "; Val (PStr (isoformat now))] ;;
  try_except (try_block event) (except_clauses context).

(** The world once the entry record is written: where the [try]
    statement starts. *)
Definition entered (w : world) : world :=
  record (mkLog INFO [Lit "Processing translation request at ";
                      Val (PStr (isoformat (clock w (reads w))))] false)
         (tick w).

(** *** The outcomes the specification names *)

(** A valid request: a mapping whose [text] is a string with a character
    that is not whitespace, and whose [target_language] is present. *)
Definition valid_request (body : pyval) : bool :=
  match body with
  | PDict d =>
      match lookup (u "text") d, lookup (u "target_language") d with
      | Some (PStr s), Some _ => negb (forallb isspace s)
      | _, _ => false
      end
  | _ => false
  end.

(** The provider call made for [body]: the arguments of lines 67-69 handed
    to [translate_text]. *)
Definition provider_call (w : world) (body : pyval) : outcome pyval :=
  text <~ getitem body (u "text") ;;
  target_language <~ getitem body (u "target_language") ;;
  source_language <~ py_get body (u "source_language") (PStr (u "auto")) ;;
  translate_text w text source_language target_language.

Definition cors_headers : list (pystr * pystr) :=
  [(u "Content-Type", u "application/json");
   (u "Access-Control-Allow-Origin", u "*")].

(** The success envelope for a provider reply and a completion time. *)
Definition success_envelope (translated source target : pyval) (now : datetime)
  : envelope :=
  mkEnvelope 200 (Some cors_headers)
    (json_dumps (PDict
       [(u "translated_text", translated);
        (u "detected_source_language", source);
        (u "target_language", target);
        (u "timestamp", PStr (isoformat now))])).

(** The rejections of [validate_input] and of the decoding step. *)
Definition body_is_empty : envelope :=
  error_envelope 400 [(u "error", PStr (u "Request body is empty"))].

Definition missing_field (field : pystr) : envelope :=
  error_envelope 400
    [(u "error", PStr (u "Missing required field: " ++ field))].

Definition text_is_blank : envelope :=
  error_envelope 400
    [(u "error", PStr (u "Text field must be a non-empty string"))].

Definition invalid_json : envelope :=
  error_envelope 400 [(u "error", PStr (u "Invalid JSON in request body"))].

(** The envelope the [except] clauses build for [e]. *)
Definition except_envelope (context : option lambda_context) (e : exc)
  : envelope :=
  match exc_type e with
  | UnsupportedLanguagePairException =>
      error_envelope 400
        [(u "error", PStr (u "Unsupported language pair"));
         (u "detail", PStr (exc_str e))]
  | InvalidRequestException =>
      error_envelope 400 [(u "error", PStr (exc_str e))]
  | JSONDecodeError => invalid_json
  | _ =>
      error_envelope 500
        [(u "error", PStr (u "Internal server error"));
         (u "request_id",
          match context with
          | Some c => PStr (aws_request_id c)
          | None => PNone
          end)]
  end.

(** The reply fields the handler reads, in the order it reads them. *)
Definition reply_fields (response : pyval) : outcome (pyval * pyval * pyval) :=
  translated <~ getitem response (u "TranslatedText") ;;
  source <~ getitem response (u "SourceLanguageCode") ;;
  target <~ getitem response (u "TargetLanguageCode") ;;
  Return (translated, source, target).

(** The first required field that the mapping [d] lacks, in the order of
    [required_fields]. *)
Definition first_missing (d : list (pystr * pyval)) : option pystr :=
  find (fun field => match lookup field d with Some _ => false | None => true end)
       required_fields.


(** The text of a success body up to the opening quote of the timestamp. *)
Definition body_before_timestamp (translated source target : pyval) : pystr :=
  u "{" ++ encode_basestring_ascii (u "translated_text") ++ u ": "
  ++ json_dumps translated ++ u ", "
  ++ encode_basestring_ascii (u "detected_source_language") ++ u ": "
  ++ json_dumps source ++ u ", "
  ++ encode_basestring_ascii (u "target_language") ++ u ": "
  ++ json_dumps target ++ u ", "
  ++ encode_basestring_ascii (u "timestamp") ++ u ": " ++ [34%N].

(** The envelope of the catch-all clause. *)
Definition internal_error (context : option lambda_context) : envelope :=
  error_envelope 500
    [(u "error", PStr (u "Internal server error"));
     (u "request_id",
      match context with
      | Some c => PStr (aws_request_id c)
      | None => PNone
      end)].

(** An error envelope: status 400 or 500, no headers, and a JSON object
    with an [error] string as body. *)
Definition is_error_envelope (env : envelope) : Prop :=
  (statusCode env = 400%Z \/ statusCode env = 500%Z) /\
  headers env = None /\
  exists payload msg,
    body env = json_dumps (PDict payload) /\
    lookup (u "error") payload = Some (PStr msg).

End Handler.

(** ** A reference JSON decoder

    [json.loads] as its scanner reads a document, used to run the handler
    on encoded bodies.  The conversion of a number with a fraction or an
    exponent is the [parse_float] hook of [json.loads]; the texts of the
    [JSONDecodeError] leave the position out. *)

Section Decoder.

Variable parse_float : pystr -> spec_float.

Definition decode_error (msg : string) : exc := mkExc JSONDecodeError (u msg).

Definition is_digit (c : N) : bool := ((48 <=? c) && (c <=? 57))%N.

Fixpoint skip_ws (s : pystr) : pystr :=
  match s with
  | c :: r =>
      if ((c =? 32) || (c =? 9) || (c =? 10) || (c =? 13))%N
      then skip_ws r else s
  | [] => []
  end.

Fixpoint span_digits (s : pystr) : pystr * pystr :=
  match s with
  | c :: r =>
      if is_digit c then let (ds, rest) := span_digits r in (c :: ds, rest)
      else ([], s)
  | [] => ([], [])
  end.

Definition hex_value (c : N) : option N :=
  (if is_digit c then Some (c - 48)
   else if (97 <=? c) && (c <=? 102) then Some (c - 87)
   else if (65 <=? c) && (c <=? 70) then Some (c - 55)
   else None)%N.

Definition hex4_value (a b c d : N) : option N :=
  let? x := hex_value a in
  let? y := hex_value b in
  let? z := hex_value c in
  let? t := hex_value d in
  Some (((x * 16 + y) * 16 + z) * 16 + t)%N.

Definition simple_escape (c : N) : option N :=
  (if c =? 34 then Some 34 else if c =? 92 then Some 92
   else if c =? 47 then Some 47 else if c =? 98 then Some 8
   else if c =? 102 then Some 12 else if c =? 110 then Some 10
   else if c =? 114 then Some 13 else if c =? 116 then Some 9
   else None)%N.

(** The low surrogate escape that may follow a high surrogate. *)
Definition low_surrogate (s : pystr) : option N :=
  match s with
  | b :: x :: h1 :: h2 :: h3 :: h4 :: _ =>
      if ((b =? 92) && (x =? 117))%N then
        let? lo := hex4_value h1 h2 h3 h4 in
        if ((56320 <=? lo) && (lo <=? 57343))%N then Some lo else None
      else None
  | _ => None
  end.

(** The characters of a string after its opening quote, up to the closing
    one, and what follows it. *)
Fixpoint scan_string (s : pystr) : outcome (pystr * pystr) :=
  match s with
  | [] => Raise (decode_error "Unterminated string starting at")
  | c :: r =>
      if (c =? 34)%N then Return ([], r)
      else if (c <? 32)%N then Raise (decode_error "Invalid control character at")
      else if (c =? 92)%N then
        match r with
        | [] => Raise (decode_error "Unterminated string starting at")
        | e :: r1 =>
            if (e =? 117)%N then
              match r1 with
              | h1 :: h2 :: h3 :: h4 :: r2 =>
                  match hex4_value h1 h2 h3 h4 with
                  | None => Raise (decode_error "Invalid \uXXXX escape")
                  | Some hi =>
                      match (if ((55296 <=? hi) && (hi <=? 56319))%N
                             then low_surrogate r2 else None), r2 with
                      | Some lo, _ :: _ :: _ :: _ :: _ :: _ :: r3 =>
                          p <~ scan_string r3 ;;
                          Return ((65536 + N.lor (N.shiftl (hi - 55296) 10)
                                             (lo - 56320))%N :: fst p, snd p)
                      | _, _ =>
                          p <~ scan_string r2 ;; Return (hi :: fst p, snd p)
                      end
                  end
              | _ => Raise (decode_error "Invalid \uXXXX escape")
              end
            else
              match simple_escape e with
              | None => Raise (decode_error "Invalid \escape")
              | Some x => p <~ scan_string r1 ;; Return (x :: fst p, snd p)
              end
        end
      else p <~ scan_string r ;; Return (c :: fst p, snd p)
  end.

(** The number at the head of [s], if one starts there: an optional minus
    sign, then 0 or a run of digits that does not start with 0, then an
    optional fraction (a dot and digits) and an optional exponent (e or E,
    an optional sign, digits).  Without fraction and exponent it is an
    [int]. *)
Definition scan_number (s : pystr) : option (pyval * pystr) :=
  let '(sign, s1) :=
    match s with
    | c :: r => if (c =? 45)%N then ([45%N], r) else ([], s)
    | [] => ([], s)
    end in
  let '(ds, s2) := span_digits s1 in
  match ds with
  | [] => None
  | d0 :: dr =>
      let '(ip, s3) := if (d0 =? 48)%N then ([d0], dr ++ s2) else (ds, s2) in
      let '(fp, s4) :=
        match s3 with
        | c :: r =>
            if (c =? 46)%N then
              match span_digits r with
              | ([], _) => ([], s3)
              | (fd, r') => (c :: fd, r')
              end
            else ([], s3)
        | [] => ([], s3)
        end in
      let '(ep, s5) :=
        match s4 with
        | c :: r =>
            if ((c =? 101) || (c =? 69))%N then
              let '(sg, r1) :=
                match r with
                | x :: r' => if ((x =? 43) || (x =? 45))%N then ([x], r') else ([], r)
                | [] => ([], r)
                end in
              match span_digits r1 with
              | ([], _) => ([], s4)
              | (ed, r2) => (c :: sg ++ ed, r2)
              end
            else ([], s4)
        | [] => ([], s4)
        end in
      match fp, ep with
      | [], [] =>
          let n := match read_digits 0 ip with Some n => Z.of_N n | None => 0%Z end in
          Some (PInt (match sign with [] => n | _ => - n end)%Z, s5)
      | _, _ => Some (PFloat (parse_float (sign ++ ip ++ fp ++ ep)), s5)
      end
  end.

(** [d[k] = v] *)
Fixpoint setitem (k : pystr) (v : pyval) (d : list (pystr * pyval))
  : list (pystr * pyval) :=
  match d with
  | [] => [(k, v)]
  | (k', v') :: d' =>
      if str_eqb k k' then (k', v) :: d' else (k', v') :: setitem k v d'
  end.

Definition recursion_error : exc :=
  mkExc (OtherException (u "RecursionError"))
        (u "maximum recursion depth exceeded while decoding a JSON document").

(** One value at the head of [s]; [n] bounds the depth of the calls. *)
Fixpoint scan_once (n : nat) (s : pystr) : outcome (pyval * pystr) :=
  match n with
  | O => Raise recursion_error
  | S n' =>
      match s with
      | [] => Raise (decode_error "Expecting value")
      | c :: r =>
          if (c =? 34)%N then
            p <~ scan_string r ;; Return (PStr (fst p), snd p)
          else if (c =? 123)%N then
            match skip_ws r with
            | x :: r' =>
                if (x =? 125)%N then Return (PDict [], r')
                else p <~ members n' (skip_ws r) [] ;; Return (PDict (fst p), snd p)
            | [] =>
                Raise (decode_error "Expecting property name enclosed in double quotes")
            end
          else if (c =? 91)%N then
            match skip_ws r with
            | x :: r' =>
                if (x =? 93)%N then Return (PList [], r')
                else p <~ elements n' (skip_ws r) ;; Return (PList (fst p), snd p)
            | [] => Raise (decode_error "Expecting value")
            end
          else if startswith s (u "null") then Return (PNone, skipn 4 s)
          else if startswith s (u "true") then Return (PBool true, skipn 4 s)
          else if startswith s (u "false") then Return (PBool false, skipn 5 s)
          else
            match scan_number s with
            | Some p => Return p
            | None =>
                if startswith s (u "NaN") then Return (PFloat S754_nan, skipn 3 s)
                else if startswith s (u "Infinity")
                then Return (PFloat (S754_infinity false), skipn 8 s)
                else if startswith s (u "-Infinity")
                then Return (PFloat (S754_infinity true), skipn 9 s)
                else Raise (decode_error "Expecting value")
            end
      end
  end

with members (n : nat) (s : pystr) (acc : list (pystr * pyval))
  : outcome (list (pystr * pyval) * pystr) :=
  match n with
  | O => Raise recursion_error
  | S n' =>
      match s with
      | c :: r =>
          if (c =? 34)%N then
            k <~ scan_string r ;;
            match skip_ws (snd k) with
            | x :: r1 =>
                if (x =? 58)%N then
                  v <~ scan_once n' (skip_ws r1) ;;
                  let acc' := setitem (fst k) (fst v) acc in
                  match skip_ws (snd v) with
                  | y :: r2 =>
                      if (y =? 125)%N then Return (acc', r2)
                      else if (y =? 44)%N then members n' (skip_ws r2) acc'
                      else Raise (decode_error "Expecting ',' delimiter")
                  | [] => Raise (decode_error "Expecting ',' delimiter")
                  end
                else Raise (decode_error "Expecting ':' delimiter")
            | [] => Raise (decode_error "Expecting ':' delimiter")
            end
          else Raise (decode_error "Expecting property name enclosed in double quotes")
      | [] => Raise (decode_error "Expecting property name enclosed in double quotes")
      end
  end

with elements (n : nat) (s : pystr) : outcome (list pyval * pystr) :=
  match n with
  | O => Raise recursion_error
  | S n' =>
      v <~ scan_once n' s ;;
      match skip_ws (snd v) with
      | y :: r =>
          if (y =? 93)%N then Return ([fst v], r)
          else if (y =? 44)%N then
            p <~ elements n' (skip_ws r) ;; Return (fst v :: fst p, snd p)
          else Raise (decode_error "Expecting ',' delimiter")
      | [] => Raise (decode_error "Expecting ',' delimiter")
      end
  end.

(** [json.loads(s)] *)
Definition json_loads_with (s : pystr) : outcome pyval :=
  if match s with c :: _ => (c =? 65279)%N | [] => false end
  then Raise (decode_error "Unexpected UTF-8 BOM (decode using utf-8-sig)")
  else
    p <~ scan_once (2 * List.length s + 2) (skip_ws s) ;;
    match skip_ws (snd p) with
    | [] => Return (fst p)
    | _ => Raise (decode_error "Extra data")
    end.

End Decoder.

(** ** The fixtures of [tests/test_lambda_function.py] *)

(** The fixtures hold no float: the float hooks of the decoder and of the
    encoder are never reached on them. *)
Definition no_float_parse (_ : pystr) : spec_float := S754_nan.
Definition no_float_str (_ : spec_float) : pystr := u "NaN".

Definition test_runtime : Runtime :=
  {| json_loads := json_loads_with no_float_parse; floatstr := no_float_str |}.

Definition dumps : pyval -> pystr := @json_dumps test_runtime.

Definition hello_request : pyval :=
  PDict [(u "text", PStr (u "Hello world!")); (u "target_language", PStr (u "es"))].

(** [valid_event]: the body is the JSON text of the request. *)
Definition valid_event : pyval :=
  PDict [(u "body", PStr (dumps hello_request))].

(** [invalid_event]: [target_language] is missing. *)
Definition invalid_event : pyval :=
  PDict [(u "body", PStr (dumps (PDict [(u "text", PStr (u "Hello world!"))])))].


(** [malformed_json_event]: the text of the request without its closing
    brace. *)
Definition malformed_json_event : pyval :=
  PDict [(u "body", PStr (removelast (dumps hello_request)))].

(** The reply of [mock_translate]; the first character is the inverted
    exclamation mark. *)
Definition hola_reply : pyval :=
  PDict [(u "TranslatedText", PStr (161%N :: u "Hola mundo!"));
         (u "SourceLanguageCode", PStr (u "en"));
         (u "TargetLanguageCode", PStr (u "es"))].

Definition mock_translate (_ _ _ : pyval) : outcome pyval := Return hola_reply.

(** [translate_text] with a [side_effect]. *)
Definition failing_translate (e : exc) (_ _ _ : pyval) : outcome pyval := Raise e.

Definition test_clock (n : nat) : datetime :=
  mkDatetime 2024 3 9 7 5 (N.of_nat n) 1234.

Definition test_world (provider : pyval -> pyval -> pyval -> outcome pyval)
  : world := mkWorld test_clock 0 provider [].

Definition test_context : lambda_context := mkContext (u "test-request-id").

Definition later_world : world :=
  mkWorld (fun n => mkDatetime 2025 12 31 23 59 (N.of_nat n) 0) 4 mock_translate [].

(** [Exception('AWS Translate service error')] *)
Definition service_error : exc :=
  mkExc (OtherException (u "Exception")) (u "AWS Translate service error").

Definition unsupported_pair : exc :=
  mkExc UnsupportedLanguagePairException (u "Unsupported language pair").

(** A [json.JSONDecodeError] raised inside the provider call. *)
Definition decode_fault : exc := mkExc JSONDecodeError (u "Expecting value").

(** ** The records the handler hands to the logger *)

(** Line 54: the entry record, with the first clock reading. *)
Definition entry_record (w : world) : log_record :=
  mkLog INFO [Lit "Processing translation request at ";
              Val (PStr (isoformat (clock w (reads w))))] false.

(** Line 63 *)
Definition rejection_record (body : pyval) : log_record :=
  mkLog WARNING [Lit "Invalid input received: "; Val body] false.

(** Line 71 *)
Definition translating_record (source_language target_language : pyval)
  : log_record :=
  mkLog INFO [Lit "Translating text from "; Val source_language;
              Lit " to "; Val target_language] false.

(** Line 94 *)
Definition completed_record : log_record :=
  mkLog INFO [Lit "Translation completed successfully"] false.

(** Lines 98, 107, 115 and 123: the record of the [except] clause that
    matches [e]; only the catch-all clause asks for the traceback. *)
Definition error_record (e : exc) : log_record :=
  match exc_type e with
  | UnsupportedLanguagePairException =>
      mkLog ERROR [Lit "Unsupported language pair: "; Val (PStr (exc_str e))] false
  | InvalidRequestException =>
      mkLog ERROR [Lit "Invalid request: "; Val (PStr (exc_str e))] false
  | JSONDecodeError =>
      mkLog ERROR [Lit "Invalid JSON in request: "; Val (PStr (exc_str e))] false
  | _ => mkLog ERROR [Lit "Unexpected error: "; Val (PStr (exc_str e))] true
  end.

(** [body.get('source_language', 'auto')] on the items of a mapping. *)
Definition source_language_of (d : list (pystr * pyval)) : pyval :=
  match lookup (u "source_language") d with
  | Some v => v
  | None => PStr (u "auto")
  end.

(** The items of a JSON array or object, with [', '] between them. *)
Fixpoint join_items (texts : list pystr) : pystr :=
  match texts with
  | [] => []
  | x :: r => x ++ match r with [] => [] | _ => u ", " ++ join_items r end
  end.

(** A provider that answers with its own arguments. *)
Definition echo_translate (text source target : pyval) : outcome pyval :=
  Return (PDict [(u "TranslatedText", text);
                 (u "SourceLanguageCode", source);
                 (u "TargetLanguageCode", target)]).


(** A request with text in blanks, a numeric target and no source. *)
Definition padded_request : list (pystr * pyval) :=
  [(u "text", PStr (u "  Hello ")); (u "target_language", PInt 7)].

(** ** Any object as invocation context *)

(** A Python object as far as line 128 looks at it: a JSON-shaped value,
    or an instance of a class with its truth value and its attributes.
    [LambdaContext] objects and mocks are instances. *)
Inductive pyobj : Type :=
| Value (v : pyval)
| Instance (class_name : pystr) (truth : bool)
           (attributes : list (pystr * pyobj)).

(** [bool(o)] *)
Definition obj_truthy (o : pyobj) : bool :=
  match o with
  | Value v => truthy v
  | Instance _ truth _ => truth
  end.

Fixpoint attribute (name : pystr) (attributes : list (pystr * pyobj))
  : option pyobj :=
  match attributes with
  | [] => None
  | (k, x) :: rest => if str_eqb name k then Some x else attribute name rest
  end.

(** [o.aws_request_id] *)
Definition get_aws_request_id (o : pyobj) : outcome pyobj :=
  match o with
  | Value v => Raise (no_attribute v "aws_request_id")
  | Instance class_name _ attributes =>
      match attribute (u "aws_request_id") attributes with
      | Some x => Return x
      | None =>
          Raise (mkExc AttributeError
                   (u "'" ++ class_name
                    ++ u "' object has no attribute 'aws_request_id'"))
      end
  end.

(** [context.aws_request_id if context else None] *)
Definition context_request_id (context : pyobj) : outcome pyobj :=
  if obj_truthy context then get_aws_request_id context
  else Return (Value PNone).

(** What [json.dumps] writes of an object inside the payload: a JSON-shaped
    value as it is, a [TypeError] for an instance. *)
Definition serializable (o : pyobj) : outcome pyval :=
  match o with
  | Value v => Return v
  | Instance class_name _ _ =>
      Raise (mkExc TypeError
               (u "Object of type " ++ class_name
                ++ u " is not JSON serializable"))
  end.

(** The contexts of [lambda_context] as objects. *)
Definition as_object (context : option lambda_context) : pyobj :=
  match context with
  | None => Value PNone
  | Some c =>
      Instance (u "LambdaContext") true
        [(u "aws_request_id", Value (PStr (aws_request_id c)))]
  end.

Section AnyContext.

Context {RT : Runtime}.

Notation "x <- c ;; k" := (bind c (fun x => k))
  (at level 61, c at next level, right associativity).
Notation "c ;; k" := (bind c (fun _ => k))
  (at level 61, right associativity).

(** The [except] clauses with any object as context: the catch-all clause
    logs, then reads the request id off the context and serializes the
    payload, and either step may raise. *)
Definition except_clauses_any (context : pyobj) (e : exc)
  : M (option envelope) :=
  match exc_type e with
  | UnsupportedLanguagePairException =>
      logger ERROR false [Lit "Unsupported language pair: "; Val (PStr (exc_str e))] ;;
      ret (Some (error_envelope 400
        [(u "error", PStr (u "Unsupported language pair"));
         (u "detail", PStr (exc_str e))]))
  | InvalidRequestException =>
      logger ERROR false [Lit "Invalid request: "; Val (PStr (exc_str e))] ;;
      ret (Some (error_envelope 400 [(u "error", PStr (exc_str e))]))
  | JSONDecodeError =>
      logger ERROR false [Lit "Invalid JSON in request: "; Val (PStr (exc_str e))] ;;
      ret (Some (error_envelope 400
        [(u "error", PStr (u "Invalid JSON in request body"))]))
  | _ =>
      logger ERROR true [Lit "Unexpected error: "; Val (PStr (exc_str e))] ;;
      request_id <- lift (context_request_id context) ;;
      written <- lift (serializable request_id) ;;
      ret (Some (error_envelope 500
        [(u "error", PStr (u "Internal server error"));
         (u "request_id", written)]))
  end.

(** What the [except] clauses answer for [e]: an envelope, or the fault of
    the catch-all clause. *)
Definition except_outcome_any (context : pyobj) (e : exc)
  : outcome (option envelope) :=
  match exc_type e with
  | UnsupportedLanguagePairException
  | InvalidRequestException
  | JSONDecodeError => Return (Some (except_envelope None e))
  | _ =>
      request_id <~ context_request_id context ;;
      written <~ serializable request_id ;;
      Return (Some (error_envelope 500
        [(u "error", PStr (u "Internal server error"));
         (u "request_id", written)]))
  end.

(** [lambda_handler] with any object as context. *)
Definition lambda_handler_any (event : pyval) (context : pyobj)
  : M (option envelope) :=
  now <- utcnow ;;
  logger_info [Lit "Processing translation request at "; Val (PStr (isoformat now))] ;;
  try_except (try_block event) (except_clauses_any context).

End AnyContext.

(** [context=object()] and [context=MagicMock()]. *)
Definition bare_object : pyobj := Instance (u "object") true [].

Definition bare_mock : pyobj :=
  Instance (u "MagicMock") true
    [(u "aws_request_id", Instance (u "MagicMock") true [])].

(** ** The text of a provider fault *)

(** [str(e)] of a botocore [ClientError]: the sentence botocore builds
    around the error code and the message of the service's reply for a
    call of [operation] that was not retried. *)
Definition client_error_str (code message operation : pystr) : pystr :=
  u "An error occurred (" ++ code ++ u ") when calling the " ++ operation
  ++ u " operation: " ++ message.

(** [translate.exceptions.UnsupportedLanguagePairException] raised by
    [translate_text] with the provider's [message]. *)
Definition unsupported_pair_error (message : pystr) : exc :=
  mkExc UnsupportedLanguagePairException
    (client_error_str (u "UnsupportedLanguagePairException") message
       (u "TranslateText")).

(** ** JSON texts *)

(** The grammar of RFC 8259, as a recognizer.  Each function answers with
    what follows the phrase it reads.  *)

(** The characters of a string after its opening quote: unescaped
    characters from U+0020 on, the two-character escapes, and [\u] with
    four hexadecimal digits. *)
Fixpoint json_chars (s : pystr) : option pystr :=
  match s with
  | [] => None
  | c :: r =>
      if (c =? 34)%N then Some r
      else if (c <? 32)%N then None
      else if (c =? 92)%N then
        match r with
        | [] => None
        | e :: r1 =>
            if (e =? 117)%N then
              match r1 with
              | h1 :: h2 :: h3 :: h4 :: r2 =>
                  match hex4_value h1 h2 h3 h4 with
                  | Some _ => json_chars r2
                  | None => None
                  end
              | _ => None
              end
            else
              match simple_escape e with
              | Some _ => json_chars r1
              | None => None
              end
        end
      else json_chars r
  end.

(** number = [ minus ] int [ frac ] [ exp ] *)
Definition json_number (s : pystr) : option pystr :=
  let s1 := match s with
            | c :: r => if (c =? 45)%N then r else s
            | [] => s
            end in
  match span_digits s1 with
  | ([], _) => None
  | (d0 :: dr, s2) =>
      let s3 := if (d0 =? 48)%N then dr ++ s2 else s2 in
      let s4 :=
        match s3 with
        | c :: r =>
            if (c =? 46)%N then
              match span_digits r with
              | ([], _) => s3
              | (_, r') => r'
              end
            else s3
        | [] => s3
        end in
      Some
        match s4 with
        | c :: r =>
            if ((c =? 101) || (c =? 69))%N then
              let r1 :=
                match r with
                | x :: r' => if ((x =? 43) || (x =? 45))%N then r' else r
                | [] => r
                end in
              match span_digits r1 with
              | ([], _) => s4
              | (_, r2) => r2
              end
            else s4
        | [] => s4
        end
  end.

(** value = false / null / true / object / array / number / string; [n]
    bounds the depth of the calls. *)
Fixpoint json_value (n : nat) (s : pystr) : option pystr :=
  match n with
  | O => None
  | S n' =>
      match s with
      | [] => None
      | c :: r =>
          if (c =? 34)%N then json_chars r
          else if (c =? 123)%N then
            match skip_ws r with
            | x :: r' =>
                if (x =? 125)%N then Some r' else json_members n' (skip_ws r)
            | [] => None
            end
          else if (c =? 91)%N then
            match skip_ws r with
            | x :: r' =>
                if (x =? 93)%N then Some r' else json_elements n' (skip_ws r)
            | [] => None
            end
          else if startswith s (u "false") then Some (skipn 5 s)
          else if startswith s (u "null") then Some (skipn 4 s)
          else if startswith s (u "true") then Some (skipn 4 s)
          else json_number s
      end
  end

with json_members (n : nat) (s : pystr) : option pystr :=
  match n with
  | O => None
  | S n' =>
      match s with
      | c :: r =>
          if (c =? 34)%N then
            let? r1 := json_chars r in
            let? r2 := expect 58 (skip_ws r1) in
            let? r3 := json_value n' (skip_ws r2) in
            match skip_ws r3 with
            | y :: r4 =>
                if (y =? 125)%N then Some r4
                else if (y =? 44)%N then json_members n' (skip_ws r4)
                else None
            | [] => None
            end
          else None
      | [] => None
      end
  end

with json_elements (n : nat) (s : pystr) : option pystr :=
  match n with
  | O => None
  | S n' =>
      let? r1 := json_value n' s in
      match skip_ws r1 with
      | y :: r2 =>
          if (y =? 93)%N then Some r2
          else if (y =? 44)%N then json_elements n' (skip_ws r2)
          else None
      | [] => None
      end
  end.

(** JSON-text = ws value ws.  The bound exceeds the number of calls a
    text of this length can make. *)
Definition is_json_text (s : pystr) : bool :=
  match json_value (2 * List.length s + 2) (skip_ws s) with
  | Some r => match skip_ws r with [] => true | _ => false end
  | None => false
  end.

(** * Properties of the runtime fragment *)

Lemma str_eqb_refl (a : pystr) : str_eqb a a = true.
Proof.
  induction a as [|x a IH]; simpl; [reflexivity|].
  now rewrite N.eqb_refl.
Qed.

Lemma str_eqb_eq (a b : pystr) : str_eqb a b = true <-> a = b.
Proof.
  split; [|intros ->; apply str_eqb_refl].
  revert b; induction a as [|x a IH]; intros [|y b]; simpl; try easy.
  rewrite andb_true_iff, N.eqb_eq. intros [-> H]. f_equal. now apply IH.
Qed.

(** *** Whitespace *)

Lemma lstrip_blank (s : pystr) : forallb isspace s = true -> lstrip s = [].
Proof.
  induction s as [|c s IH]; simpl; [reflexivity|].
  rewrite andb_true_iff. intros [-> H]. now apply IH.
Qed.

Lemma lstrip_head (s : pystr) c r : lstrip s = c :: r -> isspace c = false.
Proof.
  induction s as [|x s IH]; simpl; [discriminate|].
  destruct (isspace x) eqn:E; [assumption|].
  intros [= <- _]. exact E.
Qed.

Lemma lstrip_nil_blank (s : pystr) : lstrip s = [] -> forallb isspace s = true.
Proof.
  induction s as [|c s IH]; simpl; [reflexivity|].
  destruct (isspace c); [assumption | discriminate].
Qed.

Lemma forallb_rev {A} (f : A -> bool) (l : list A) :
  forallb f (rev l) = forallb f l.
Proof.
  induction l as [|x l IH]; simpl; [reflexivity|].
  rewrite forallb_app, IH. simpl. rewrite andb_true_r. apply andb_comm.
Qed.

(** [s.strip()] is empty exactly when [s] holds whitespace only. *)
Lemma strip_nil_iff (s : pystr) : strip s = [] <-> forallb isspace s = true.
Proof.
  unfold strip, rstrip. split.
  - intros H.
    assert (Hr : lstrip (rev (lstrip s)) = []).
    { rewrite <- (rev_involutive (lstrip (rev (lstrip s)))), H. reflexivity. }
    apply lstrip_nil_blank in Hr. rewrite forallb_rev in Hr.
    destruct (lstrip s) as [|c r] eqn:E; [now apply lstrip_nil_blank|].
    apply lstrip_head in E. simpl in Hr. rewrite E in Hr. discriminate.
  - intros H. rewrite (lstrip_blank _ H). reflexivity.
Qed.

Lemma strip_truthy (s : pystr) :
  truthy (PStr (strip s)) = negb (forallb isspace s).
Proof.
  destruct (forallb isspace s) eqn:E.
  - apply strip_nil_iff in E. now rewrite E.
  - destruct (strip s) eqn:F; [|reflexivity].
    apply strip_nil_iff in F. congruence.
Qed.

(** *** Timestamps *)

Lemma zero_padded_length k n : List.length (zero_padded k n) = k.
Proof.
  revert n; induction k as [|k IH]; intros n; simpl; [reflexivity|].
  rewrite length_app, IH. simpl. lia.
Qed.

Lemma read_digits_app acc a b :
  read_digits acc (a ++ b) =
  match read_digits acc a with
  | Some x => read_digits x b
  | None => None
  end.
Proof.
  revert acc; induction a as [|c a IH]; intros acc; simpl; [reflexivity|].
  destruct ((48 <=? c)%N && (c <=? 57)%N); [apply IH | reflexivity].
Qed.

Lemma read_digits_zero_padded k n acc :
  (n < 10 ^ N.of_nat k)%N ->
  read_digits acc (zero_padded k n) = Some (acc * 10 ^ N.of_nat k + n)%N.
Proof.
  revert n acc; induction k as [|k IH]; intros n acc Hn.
  - simpl in *. f_equal. lia.
  - rewrite Nat2N.inj_succ, N.pow_succ_r' in * by lia.
    cbn [zero_padded].
    pose proof (N.div_mod n 10 ltac:(lia)) as Hn'.
    pose proof (N.mod_lt n 10 ltac:(lia)) as Hr.
    remember (n / 10)%N as q eqn:Eq. remember (n mod 10)%N as r eqn:Er.
    clear Eq Er.
    rewrite read_digits_app, IH by lia.
    cbn [read_digits].
    replace ((48 <=? 48 + r)%N && (48 + r <=? 57)%N) with true
      by (symmetry; rewrite andb_true_iff, !N.leb_le; lia).
    f_equal. lia.
Qed.

Lemma field_digits (a rest : pystr) n :
  number a = Some n ->
  field (List.length a) (a ++ rest) = Some (n, rest).
Proof.
  intros H. unfold field.
  rewrite length_app.
  replace (List.length a <=? List.length a + List.length rest)%nat with true
    by (symmetry; apply Nat.leb_le; lia).
  rewrite firstn_app, skipn_app, firstn_all, skipn_all, Nat.sub_diag.
  cbn [firstn skipn app]. rewrite app_nil_r, H. reflexivity.
Qed.

Lemma field_zero_padded k n rest :
  (0 < k)%nat -> (n < 10 ^ N.of_nat k)%N ->
  field k (zero_padded k n ++ rest) = Some (n, rest).
Proof.
  intros Hk Hn.
  pattern k at 1. rewrite <- (zero_padded_length k n).
  apply field_digits. unfold number.
  destruct (zero_padded k n) eqn:E.
  - apply (f_equal (@List.length _)) in E. rewrite zero_padded_length in E.
    simpl in E. lia.
  - rewrite <- E, read_digits_zero_padded by assumption. reflexivity.
Qed.

Lemma expect_head c r : expect c (c :: r) = Some r.
Proof. unfold expect. now rewrite N.eqb_refl. Qed.

(** [datetime.fromisoformat] reads back what [isoformat] writes. *)
Lemma fromisoformat_isoformat (t : datetime) :
  valid_datetime t = true -> fromisoformat (isoformat t) = Some t.
Proof.
  intros V. pose proof V as V'. unfold valid_datetime in V'.
  repeat rewrite andb_true_iff in V'.
  repeat match goal with H : _ /\ _ |- _ => destruct H end.
  repeat match goal with
         | H : (_ <=? _)%N = true |- _ => apply N.leb_le in H
         | H : (_ <? _)%N = true |- _ => apply N.ltb_lt in H
         end.
  assert (Hd : (day t <= 31)%N).
  { unfold days_in_month in *.
    repeat match goal with
           | H : context [if ?b then _ else _] |- _ => destruct b
           end; lia. }
  unfold fromisoformat, isoformat.
  change (u "-") with [45%N]. change (u "T") with [84%N].
  change (u ":") with [58%N]. change (u ".") with [46%N].
  cbn [app].
  repeat (rewrite field_zero_padded by (simpl; lia);
          cbn [obind' any_char]; rewrite ?expect_head; cbn [obind']).
  destruct (microsecond t =? 0)%N eqn:U.
  - apply N.eqb_eq in U. cbn [obind'].
    rewrite <- U.
    replace (mkDatetime _ _ _ _ _ _ _) with t by (destruct t; reflexivity).
    now rewrite V.
  - cbn [app]. rewrite expect_head. cbn [obind'].
    rewrite <- (app_nil_r (zero_padded 6 (microsecond t))).
    rewrite field_zero_padded by (simpl; lia). cbn [obind'].
    replace (mkDatetime _ _ _ _ _ _ _) with t by (destruct t; reflexivity).
    now rewrite V.
Qed.

(** * Properties of the handler *)

Arguments u : simpl never.
Arguments isoformat : simpl never.
Arguments json_dumps : simpl never.

Section Properties.

Context {RT : Runtime}.

(** ** [validate_input] *)

Lemma validate_input_falsy body :
  truthy body = false ->
  validate_input body = Return (false, Some body_is_empty).
Proof. intros H. unfold validate_input. now rewrite H. Qed.

(** On a non-empty mapping the three rules are tried in order and the
    first one that fails decides. *)
Lemma validate_input_dict d :
  d <> [] ->
  validate_input (PDict d) =
  Return
    match lookup (u "text") d with
    | None => (false, Some (missing_field (u "text")))
    | Some text =>
        match lookup (u "target_language") d with
        | None => (false, Some (missing_field (u "target_language")))
        | Some _ =>
            match text with
            | PStr s =>
                if forallb isspace s then (false, Some text_is_blank)
                else (true, None)
            | _ => (false, Some text_is_blank)
            end
        end
    end.
Proof.
  intros Hd. unfold validate_input.
  replace (truthy (PDict d)) with true by (destruct d; [congruence | reflexivity]).
  cbn [negb required_fields check_required_fields contains obind].
  destruct (lookup (u "text") d) as [text|] eqn:Et; cbn [negb obind]; [|reflexivity].
  destruct (lookup (u "target_language") d) as [tl|] eqn:El;
    cbn [negb obind getitem]; [|reflexivity].
  rewrite Et. cbn [obind].
  destruct text; cbn [isinstance_str negb obind py_strip]; try reflexivity.
  rewrite strip_truthy, negb_involutive.
  now destruct (forallb isspace s).
Qed.

Lemma validate_input_scalar body :
  truthy body = true ->
  match body with PStr _ | PList _ | PDict _ => False | _ => True end ->
  exists e, validate_input body = Raise e /\ exc_type e = TypeError.
Proof.
  intros Ht Hs. unfold validate_input. rewrite Ht.
  destruct body; try contradiction; try discriminate;
    cbn [negb required_fields check_required_fields contains obind];
    eexists; split; reflexivity.
Qed.

(** What [validate_input] returns when it returns: acceptance, or one of
    its four rejections. *)
Lemma validate_input_returns body r :
  validate_input body = Return r ->
  r = (true, None) \/
  r = (false, Some body_is_empty) \/
  r = (false, Some (missing_field (u "text"))) \/
  r = (false, Some (missing_field (u "target_language"))) \/
  r = (false, Some text_is_blank).
Proof.
  destruct (truthy body) eqn:Ht.
  2:{ rewrite validate_input_falsy by assumption. intros [= <-]. tauto. }
  destruct body; try discriminate;
    try (destruct (validate_input_scalar _ Ht I) as (e & -> & _); discriminate).
  - (* str *)
    unfold validate_input. rewrite Ht.
    cbn [negb required_fields check_required_fields contains obind].
    destruct (substring_of (u "text") s); cbn [negb obind].
    + destruct (substring_of (u "target_language") s); cbn [negb obind getitem].
      * discriminate.
      * intros [= <-]. tauto.
    + intros [= <-]. tauto.
  - (* list *)
    unfold validate_input. rewrite Ht.
    cbn [negb required_fields check_required_fields contains obind].
    destruct (existsb _ l); cbn [negb obind].
    + destruct (existsb _ l); cbn [negb obind getitem].
      * discriminate.
      * intros [= <-]. tauto.
    + intros [= <-]. tauto.
  - (* dict *)
    rewrite validate_input_dict by (destruct d; [discriminate | congruence]).
    intros [= <-].
    destruct (lookup (u "text") d) as [text|]; [|tauto].
    destruct (lookup (u "target_language") d); [|tauto].
    destruct text; try tauto.
    destruct (forallb isspace s); tauto.
Qed.

(** [validate_input] accepts exactly the valid requests. *)
Lemma validate_input_accepts body :
  validate_input body = Return (true, None) <-> valid_request body = true.
Proof.
  split.
  - intros H. destruct (truthy body) eqn:Ht.
    2:{ rewrite validate_input_falsy in H by assumption. discriminate. }
    destruct body; try discriminate;
      try (destruct (validate_input_scalar _ Ht I) as (e & He & _);
           rewrite He in H; discriminate).
    + revert H. unfold validate_input. rewrite Ht.
      cbn [negb required_fields check_required_fields contains obind].
      destruct (substring_of (u "text") s); cbn [negb obind]; [|discriminate].
      destruct (substring_of (u "target_language") s); cbn [negb obind getitem];
        discriminate.
    + revert H. unfold validate_input. rewrite Ht.
      cbn [negb required_fields check_required_fields contains obind].
      destruct (existsb _ l); cbn [negb obind]; [|discriminate].
      destruct (existsb _ l); cbn [negb obind getitem]; discriminate.
    + rewrite validate_input_dict in H by (destruct d; [discriminate | congruence]).
      unfold valid_request.
      destruct (lookup (u "text") d) as [text|]; [|discriminate].
      destruct (lookup (u "target_language") d); [|discriminate].
      destruct text; try discriminate.
      destruct (forallb isspace s); [discriminate | reflexivity].
  - unfold valid_request. destruct body; try discriminate.
    intros H.
    assert (Hd : d <> []).
    { intros ->. discriminate. }
    rewrite validate_input_dict by assumption.
    destruct (lookup (u "text") d) as [text|]; [|discriminate].
    destruct text; try discriminate.
    destruct (lookup (u "target_language") d); [|discriminate].
    destruct (forallb isspace s); [discriminate | reflexivity].
Qed.

(** ** The [try] statement *)

Lemma except_clauses_envelope context e w :
  fst (except_clauses context e w) = Return (Some (except_envelope context e)).
Proof.
  unfold except_clauses, except_envelope.
  destruct (exc_type e); reflexivity.
Qed.

(** The handler returns what the [try] block returns, and the envelope of
    the matching [except] clause when the block raises. *)
Lemma lambda_handler_result event context w :
  fst (lambda_handler event context w) =
  match fst (try_block event (entered w)) with
  | Return r => Return r
  | Raise e => Return (Some (except_envelope context e))
  end.
Proof.
  change (lambda_handler event context w)
    with (try_except (try_block event) (except_clauses context) (entered w)).
  unfold try_except.
  destruct (try_block event (entered w)) as [[r|e] w']; cbn [fst].
  - reflexivity.
  - apply except_clauses_envelope.
Qed.

Lemma try_block_decode_fault event e w :
  request_body event = Raise e -> fst (try_block event w) = Raise e.
Proof.
  intros H. unfold try_block, bind, lift. now rewrite H.
Qed.

Lemma try_block_validation_fault event body e w :
  request_body event = Return body ->
  validate_input body = Raise e ->
  fst (try_block event w) = Raise e.
Proof.
  intros H V. unfold try_block, bind, lift. now rewrite H, V.
Qed.

Lemma try_block_rejected event body r w :
  request_body event = Return body ->
  validate_input body = Return (false, r) ->
  fst (try_block event w) = Return r.
Proof.
  intros H V. unfold try_block, bind, lift. now rewrite H, V.
Qed.

Lemma try_block_accepted event body w :
  request_body event = Return body ->
  valid_request body = true ->
  fst (try_block event w) =
  (response <~ provider_call w body ;;
   fields <~ reply_fields response ;;
   let '(translated, source, target) := fields in
   Return (Some (success_envelope translated source target
                   (clock w (reads w))))).
Proof.
  intros H V. pose proof (proj2 (validate_input_accepts body) V) as A.
  unfold try_block, bind, lift. rewrite H, A. cbn [negb].
  unfold provider_call, reply_fields, call_translate_text, logger_info,
    logger, utcnow, ret.
  destruct (getitem body (u "text")) as [text|e]; cbn [obind fst]; [|reflexivity].
  destruct (getitem body (u "target_language")) as [target|e];
    cbn [obind fst]; [|reflexivity].
  destruct (py_get body (u "source_language") (PStr (u "auto"))) as [source|e];
    cbn [obind fst]; [|reflexivity].
  cbn [translate_text record].
  destruct (translate_text w text source target) as [response|e];
    cbn [obind fst]; [|reflexivity].
  destruct (getitem response (u "TranslatedText")) as [x|e];
    cbn [obind fst]; [|reflexivity].
  destruct (getitem response (u "SourceLanguageCode")) as [y|e];
    cbn [obind fst]; [|reflexivity].
  destruct (getitem response (u "TargetLanguageCode")) as [z|e];
    cbn [obind fst]; [|reflexivity].
  reflexivity.
Qed.

Lemma provider_call_entered w body :
  provider_call (entered w) body = provider_call w body.
Proof. reflexivity. Qed.

Lemma except_envelope_is_error context e :
  is_error_envelope (except_envelope context e).
Proof.
  unfold except_envelope, is_error_envelope.
  destruct (exc_type e); cbn [statusCode headers body error_envelope
                               invalid_json];
    (split; [auto | split; [reflexivity | do 2 eexists; split; reflexivity]]).
Qed.

Lemma rejection_is_error r :
  r = body_is_empty \/ r = missing_field (u "text") \/
  r = missing_field (u "target_language") \/ r = text_is_blank ->
  is_error_envelope r.
Proof.
  intros [-> | [-> | [-> | ->]]];
    (split; [left; reflexivity | split; [reflexivity |]]);
    do 2 eexists; split; reflexivity.
Qed.

(** What the [try] block returns when it returns: an envelope, either the
    success one or a rejection of [validate_input]. *)
Lemma try_block_returns event w r :
  fst (try_block event w) = Return r ->
  exists env, r = Some env /\ (statusCode env = 200%Z \/ is_error_envelope env).
Proof.
  destruct (request_body event) as [body|e] eqn:B.
  2:{ rewrite (try_block_decode_fault _ w B). discriminate. }
  destruct (validate_input body) as [[ok r']|e] eqn:V.
  2:{ rewrite (try_block_validation_fault _ w B V). discriminate. }
  destruct (validate_input_returns _ V) as [E | E].
  - injection E as -> ->.
    rewrite (try_block_accepted _ w B (proj1 (validate_input_accepts body) V)).
    destruct (provider_call w body); cbn [obind]; [|discriminate].
    destruct (reply_fields a) as [[[x y] z]|]; cbn [obind]; [|discriminate].
    intros [= <-]. eexists. split; [reflexivity | left; reflexivity].
  - assert (ok = false /\ exists env, r' = Some env /\ is_error_envelope env)
      as (-> & env & -> & He).
    { destruct E as [E | [E | [E | E]]]; injection E as -> ->;
        (split; [reflexivity | eexists; split; [reflexivity |]]);
        apply rejection_is_error; tauto. }
    rewrite (try_block_rejected _ w B V). intros [= <-].
    eexists. split; [reflexivity | right; exact He].
Qed.

(** ** The claims *)

(** C1. A valid request whose provider call returns a reply with the three
    fields gets status 200, the two CORS headers, and a JSON body holding
    the reply's TranslatedText, SourceLanguageCode and TargetLanguageCode
    and the ISO-8601 text of the completion time, which
    [datetime.fromisoformat] reads back. *)
Theorem successful_translation event context w request response translated source target
  (Hbody : request_body event = Return request)
  (Hvalid : valid_request request = true)
  (Hcall : provider_call w request = Return response)
  (Hreply : reply_fields response = Return (translated, source, target))
  (Hclock : valid_datetime (clock w (S (reads w))) = true) :
  exists env timestamp,
    fst (lambda_handler event context w) = Return (Some env) /\
    statusCode env = 200%Z /\
    headers env = Some [(u "Content-Type", u "application/json");
                        (u "Access-Control-Allow-Origin", u "*")] /\
    body env = json_dumps (PDict [(u "translated_text", translated);
                                  (u "detected_source_language", source);
                                  (u "target_language", target);
                                  (u "timestamp", PStr timestamp)]) /\
    timestamp = isoformat (clock w (S (reads w))) /\
    fromisoformat timestamp = Some (clock w (S (reads w))).
Proof.
  exists (success_envelope translated source target (clock w (S (reads w)))).
  exists (isoformat (clock w (S (reads w)))).
  rewrite lambda_handler_result, (try_block_accepted _ _ Hbody Hvalid).
  rewrite provider_call_entered, Hcall. cbn [obind]. rewrite Hreply. cbn [obind].
  repeat split. now apply fromisoformat_isoformat.
Qed.

(** With [None] or a [LambdaContext] the handler returns an envelope for
    every event and world; when the [try] block raises, whatever the
    fault, the envelope is an error envelope (status 400 or 500 and a JSON
    object with an [error] string), and when it returns, the handler
    returns that envelope. *)
Theorem handler_never_raises event context w :
  exists env,
    fst (lambda_handler event context w) = Return (Some env) /\
    (statusCode env = 200%Z \/ is_error_envelope env) /\
    match fst (try_block event (entered w)) with
    | Raise e => is_error_envelope env
    | Return r => r = Some env
    end.
Proof.
  rewrite lambda_handler_result.
  destruct (fst (try_block event (entered w))) as [r|e] eqn:T.
  - destruct (try_block_returns _ _ T) as (env & -> & H).
    exists env. split; [reflexivity | split; [exact H | reflexivity]].
  - exists (except_envelope context e).
    pose proof (except_envelope_is_error context e) as H.
    split; [reflexivity | split; [right; exact H | exact H]].
Qed.

(** The other provider faults. A valid request whose provider
    call raises a fault that is neither the unsupported-language-pair
    fault, nor the invalid-request fault, nor a JSON decode error gets
    status 500 with the error
    [Internal server error] and the context's request id, or null without
    a context; nothing of the fault is in the envelope. *)
Theorem unexpected_provider_fault event context w request e
  (Hbody : request_body event = Return request)
  (Hvalid : valid_request request = true)
  (Hcall : provider_call w request = Raise e)
  (Hpair : exc_type e <> UnsupportedLanguagePairException)
  (Hreq : exc_type e <> InvalidRequestException)
  (Hjson : exc_type e <> JSONDecodeError) :
  fst (lambda_handler event context w) =
  Return (Some (error_envelope 500
    [(u "error", PStr (u "Internal server error"));
     (u "request_id",
      match context with
      | Some c => PStr (aws_request_id c)
      | None => PNone
      end)])).
Proof.
  rewrite lambda_handler_result, (try_block_accepted _ _ Hbody Hvalid).
  rewrite provider_call_entered, Hcall. cbn [obind].
  unfold except_envelope.
  destruct (exc_type e); try reflexivity; congruence.
Qed.


(** A valid request whose provider call raises the
    unsupported-language-pair fault gets status 400 with the error
    [Unsupported language pair] and [str(e)] as [detail]. *)
Theorem unsupported_language_pair event context w request e
  (Hbody : request_body event = Return request)
  (Hvalid : valid_request request = true)
  (Hcall : provider_call w request = Raise e)
  (Hpair : exc_type e = UnsupportedLanguagePairException) :
  fst (lambda_handler event context w) =
  Return (Some (error_envelope 400
    [(u "error", PStr (u "Unsupported language pair"));
     (u "detail", PStr (exc_str e))])).
Proof.
  rewrite lambda_handler_result, (try_block_accepted _ _ Hbody Hvalid).
  rewrite provider_call_entered, Hcall. cbn [obind].
  unfold except_envelope. now rewrite Hpair.
Qed.




(** *** Timestamps inside a body *)

Lemma escape_char_plain c :
  (32 <= c <= 126)%N -> c <> 34%N -> c <> 92%N -> escape_char c = [c].
Proof.
  intros [Hl Hh] Hq Hb. unfold escape_char.
  repeat match goal with
         | |- context [(c =? ?k)%N] =>
             destruct (N.eqb_spec c k); [lia|]
         end.
  replace ((32 <=? c)%N && (c <=? 126)%N) with true; [reflexivity|].
  symmetry. rewrite andb_true_iff, !N.leb_le. lia.
Qed.

Lemma encode_plain (s : pystr) :
  Forall (fun c => (32 <= c <= 126)%N /\ c <> 34%N /\ c <> 92%N) s ->
  encode_basestring_ascii s = [34%N] ++ s ++ [34%N].
Proof.
  intros H. unfold encode_basestring_ascii. do 2 f_equal.
  induction H as [|c s (Hr & Hq & Hb) _ IH]; [reflexivity|].
  cbn [flat_map]. now rewrite escape_char_plain, IH.
Qed.

Lemma zero_padded_digits k n :
  Forall (fun c => (48 <= c <= 57)%N) (zero_padded k n).
Proof.
  revert n; induction k as [|k IH]; intros n; cbn [zero_padded]; [constructor|].
  apply Forall_app. split; [apply IH|].
  constructor; [|constructor].
  pose proof (N.mod_lt n 10 ltac:(lia)) as Hr.
  remember (n mod 10)%N as r. lia.
Qed.

Lemma zero_padded_plain k n :
  Forall (fun c => (32 <= c <= 126)%N /\ c <> 34%N /\ c <> 92%N)
         (zero_padded k n).
Proof.
  eapply Forall_impl; [|apply zero_padded_digits].
  cbn beta. intros c H. lia.
Qed.

Lemma isoformat_plain t :
  Forall (fun c => (32 <= c <= 126)%N /\ c <> 34%N /\ c <> 92%N) (isoformat t).
Proof.
  unfold isoformat.
  change (u "-") with [45%N]. change (u "T") with [84%N].
  change (u ":") with [58%N]. change (u ".") with [46%N].
  repeat (apply Forall_app; split;
          [first [apply zero_padded_plain | constructor; [lia | constructor]]|]).
  destruct (microsecond t =? 0)%N; [constructor|].
  apply Forall_app; split; [constructor; [lia | constructor]|].
  apply zero_padded_plain.
Qed.

Lemma success_body translated source target now :
  body (success_envelope translated source target now) =
  body_before_timestamp translated source target ++ isoformat now ++ [34; 125]%N.
Proof.
  unfold success_envelope, body_before_timestamp.
  cbn [body].
  change (json_dumps (PDict ?d)) with
    (u "{" ++
      (encode_basestring_ascii (u "translated_text") ++ u ": "
       ++ json_dumps translated ++ u ", "
       ++ encode_basestring_ascii (u "detected_source_language") ++ u ": "
       ++ json_dumps source ++ u ", "
       ++ encode_basestring_ascii (u "target_language") ++ u ": "
       ++ json_dumps target ++ u ", "
       ++ encode_basestring_ascii (u "timestamp") ++ u ": "
       ++ encode_basestring_ascii (isoformat now) ++ [])
      ++ u "}").
  rewrite (encode_plain (isoformat_plain now)).
  change (u "}") with [125%N].
  repeat rewrite <- app_assoc. reflexivity.
Qed.

(** C8, for the texts the decoder rejects. A body text that [json.loads]
    rejects with a [JSONDecodeError] gets status 400 with the error [Invalid JSON in request body], an
    envelope that no rejection of [validate_input] equals. *)
Theorem undecodable_body_is_invalid_json event context w s e
  (Hbody : getitem event (u "body") = Return (PStr s))
  (Hloads : json_loads s = Raise e)
  (Hjson : exc_type e = JSONDecodeError) :
  fst (lambda_handler event context w) =
  Return (Some (error_envelope 400
    [(u "error", PStr (u "Invalid JSON in request body"))])) /\
  forall request ok rejection,
    validate_input request = Return (ok, Some rejection) ->
    rejection <> error_envelope 400
      [(u "error", PStr (u "Invalid JSON in request body"))].
Proof.
  split.
  - assert (B : request_body event = Raise e).
    { unfold request_body. rewrite Hbody. exact Hloads. }
    rewrite lambda_handler_result, (try_block_decode_fault _ _ B).
    unfold except_envelope. now rewrite Hjson.
  - intros request ok rejection V E.
    apply validate_input_returns in V.
    destruct V as [V | [V | [V | [V | V]]]]; [discriminate | ..];
      injection V as -> ->;
      apply (f_equal body) in E; vm_compute in E; discriminate.
Qed.

(** C9. Two invocations on the same valid event, in worlds whose provider
    gives the same reply, return envelopes with the same status and
    headers, and bodies that are the same text before and after the
    characters of the timestamp. *)
Theorem same_body_up_to_timestamp event context1 context2 w1 w2
        request response translated source target
  (Hbody : request_body event = Return request)
  (Hvalid : valid_request request = true)
  (Hcall1 : provider_call w1 request = Return response)
  (Hcall2 : provider_call w2 request = Return response)
  (Hreply : reply_fields response = Return (translated, source, target)) :
  exists env1 env2,
    fst (lambda_handler event context1 w1) = Return (Some env1) /\
    fst (lambda_handler event context2 w2) = Return (Some env2) /\
    statusCode env1 = statusCode env2 /\
    headers env1 = headers env2 /\
    body env1 = body_before_timestamp translated source target
                ++ isoformat (clock w1 (S (reads w1))) ++ [34; 125]%N /\
    body env2 = body_before_timestamp translated source target
                ++ isoformat (clock w2 (S (reads w2))) ++ [34; 125]%N.
Proof.
  exists (success_envelope translated source target (clock w1 (S (reads w1)))).
  exists (success_envelope translated source target (clock w2 (S (reads w2)))).
  rewrite !lambda_handler_result, !(try_block_accepted _ _ Hbody Hvalid).
  rewrite !provider_call_entered, Hcall1, Hcall2. cbn [obind].
  rewrite Hreply. cbn [obind].
  repeat split; apply success_body.
Qed.

(** ** Further outcomes of the handler *)

Lemma first_missing_cases d :
  first_missing d =
  match lookup (u "text") d, lookup (u "target_language") d with
  | None, _ => Some (u "text")
  | Some _, None => Some (u "target_language")
  | Some _, Some _ => None
  end.
Proof.
  unfold first_missing, required_fields. cbn [find].
  destruct (lookup (u "text") d); [|reflexivity].
  now destruct (lookup (u "target_language") d).
Qed.





(** [validate_input] answers [(True, None)] exactly on the valid requests,
    and never raises on a mapping. *)
Theorem validate_input_decides body :
  (validate_input body = Return (true, None) <-> valid_request body = true) /\
  (forall d, body = PDict d -> exists r, validate_input body = Return r).
Proof.
  split; [apply validate_input_accepts|].
  intros d ->. destruct d as [|x d].
  - eexists. apply validate_input_falsy. reflexivity.
  - eexists. apply validate_input_dict. discriminate.
Qed.

End Properties.

(** ** The claims on the fixtures of the test suite *)

(** [test_successful_translation], with the reply of the specification's
    concrete scenario. *)
Lemma successful_translation_witness :
  exists env timestamp,
    fst (@lambda_handler test_runtime valid_event None
           (test_world mock_translate)) = Return (Some env) /\
    statusCode env = 200%Z /\
    headers env = Some [(u "Content-Type", u "application/json");
                        (u "Access-Control-Allow-Origin", u "*")] /\
    body env = dumps (PDict [(u "translated_text", PStr (161%N :: u "Hola mundo!"));
                             (u "detected_source_language", PStr (u "en"));
                             (u "target_language", PStr (u "es"));
                             (u "timestamp", PStr timestamp)]) /\
    timestamp = u "2024-03-09T07:05:01.001234" /\
    fromisoformat timestamp = Some (mkDatetime 2024 3 9 7 5 1 1234).
Proof.
  apply (@successful_translation test_runtime valid_event None
           (test_world mock_translate) hello_request hola_reply);
    vm_compute; reflexivity.
Defined.

(** [test_translate_service_error] *)
Lemma unexpected_provider_fault_witness :
  fst (@lambda_handler test_runtime valid_event (Some test_context)
         (test_world (failing_translate service_error))) =
  Return (Some (@error_envelope test_runtime 500
    [(u "error", PStr (u "Internal server error"));
     (u "request_id", PStr (u "test-request-id"))])).
Proof.
  apply (@unexpected_provider_fault test_runtime valid_event
           (Some test_context) (test_world (failing_translate service_error))
           hello_request service_error);
    vm_compute; (reflexivity || discriminate).
Defined.

(** A provider call that raises a JSON decode error, which is neither of
    the two provider faults with a clause of their own, gets the 400 of
    the decoding step and not the 500 envelope. *)
Lemma provider_decode_fault_is_400 :
  @request_body test_runtime valid_event = Return hello_request /\
  valid_request hello_request = true /\
  provider_call (test_world (failing_translate decode_fault)) hello_request =
    Raise decode_fault /\
  exc_type decode_fault <> UnsupportedLanguagePairException /\
  exc_type decode_fault <> InvalidRequestException /\
  fst (@lambda_handler test_runtime valid_event (Some test_context)
         (test_world (failing_translate decode_fault))) =
    Return (Some (@error_envelope test_runtime 400
      [(u "error", PStr (u "Invalid JSON in request body"))])) /\
  fst (@lambda_handler test_runtime valid_event (Some test_context)
         (test_world (failing_translate decode_fault))) <>
    Return (Some (@error_envelope test_runtime 500
      [(u "error", PStr (u "Internal server error"));
       (u "request_id", PStr (u "test-request-id"))])).
Proof.
  repeat split; try (vm_compute; reflexivity); vm_compute; discriminate.
Qed.


(** [test_unsupported_language_pair] *)
Lemma unsupported_language_pair_witness :
  fst (@lambda_handler test_runtime valid_event None
         (test_world (failing_translate unsupported_pair))) =
  Return (Some (@error_envelope test_runtime 400
    [(u "error", PStr (u "Unsupported language pair"));
     (u "detail", PStr (u "Unsupported language pair"))])).
Proof.
  apply (@unsupported_language_pair test_runtime valid_event None
           (test_world (failing_translate unsupported_pair))
           hello_request unsupported_pair);
    vm_compute; reflexivity.
Defined.



(** [test_malformed_json] *)
Lemma undecodable_body_is_invalid_json_witness :
  fst (@lambda_handler test_runtime malformed_json_event None
         (test_world mock_translate)) =
  Return (Some (@error_envelope test_runtime 400
    [(u "error", PStr (u "Invalid JSON in request body"))])).
Proof.
  apply (@undecodable_body_is_invalid_json test_runtime
           malformed_json_event None (test_world mock_translate)
           (removelast (dumps hello_request))
           (decode_error "Expecting ',' delimiter"));
    vm_compute; reflexivity.
Defined.

Lemma same_body_up_to_timestamp_witness :
  exists env1 env2,
    fst (@lambda_handler test_runtime valid_event None
           (test_world mock_translate)) = Return (Some env1) /\
    fst (@lambda_handler test_runtime valid_event (Some test_context)
           later_world) = Return (Some env2) /\
    statusCode env1 = statusCode env2 /\
    headers env1 = headers env2 /\
    body env1 =
      @body_before_timestamp test_runtime (PStr (161%N :: u "Hola mundo!"))
        (PStr (u "en")) (PStr (u "es"))
      ++ u "2024-03-09T07:05:01.001234" ++ [34; 125]%N /\
    body env2 =
      @body_before_timestamp test_runtime (PStr (161%N :: u "Hola mundo!"))
        (PStr (u "en")) (PStr (u "es"))
      ++ u "2025-12-31T23:59:05" ++ [34; 125]%N.
Proof.
  apply (@same_body_up_to_timestamp test_runtime valid_event None
           (Some test_context) (test_world mock_translate) later_world
           hello_request hola_reply);
    vm_compute; reflexivity.
Defined.





(** ** The definitions on concrete inputs *)

Example dumps_hello_request :
  dumps hello_request =
  u "{" ++ [34%N] ++ u "text" ++ [34%N] ++ u ": " ++ [34%N] ++ u "Hello world!"
  ++ [34%N] ++ u ", " ++ [34%N] ++ u "target_language" ++ [34%N] ++ u ": "
  ++ [34%N] ++ u "es" ++ [34%N] ++ u "}".
Proof. reflexivity. Qed.

Example loads_dumps_hello_request :
  @json_loads test_runtime (dumps hello_request) = Return hello_request.
Proof. reflexivity. Qed.

(** Escapes: a quote, a line feed, e with acute accent and a character
    above the basic plane, written and read back. *)
Example escapes_written :
  encode_basestring_ascii [34; 10; 233; 128512]%N =
  [34; 92; 34; 92]%N ++ u "n" ++ [92%N] ++ u "u00e9" ++ [92%N] ++ u "ud83d"
  ++ [92%N] ++ u "ude00" ++ [34%N].
Proof. reflexivity. Qed.

Example escapes_read_back :
  @json_loads test_runtime (encode_basestring_ascii [34; 10; 233; 128512]%N) =
  Return (PStr [34; 10; 233; 128512]%N).
Proof. reflexivity. Qed.

Example isoformat_whole_second :
  isoformat (mkDatetime 2024 2 29 23 59 59 0) = u "2024-02-29T23:59:59".
Proof. reflexivity. Qed.

Example fromisoformat_rejects_february_30 :
  fromisoformat (u "2024-02-30T07:05:00") = None.
Proof. reflexivity. Qed.

Example strip_unicode_space :
  strip ([12288; 32]%N ++ u "hola" ++ [9; 160]%N) = u "hola".
Proof. reflexivity. Qed.

(** The decoded success body of the concrete scenario. *)
Example concrete_scenario_body :
  match fst (@lambda_handler test_runtime valid_event None
               (test_world mock_translate)) with
  | Return (Some env) => @json_loads test_runtime (body env)
  | Return None => Return PNone
  | Raise e => Raise e
  end =
  Return (PDict [(u "translated_text", PStr (161%N :: u "Hola mundo!"));
                 (u "detected_source_language", PStr (u "en"));
                 (u "target_language", PStr (u "es"));
                 (u "timestamp", PStr (u "2024-03-09T07:05:01.001234"))]).
Proof. vm_compute. reflexivity. Qed.

(** * The rest of the handler: arguments, shapes, log and world *)

Section Coverage.

Context {RT : Runtime}.

Lemma valid_request_inv request :
  valid_request request = true ->
  exists d s target,
    request = PDict d /\
    lookup (u "text") d = Some (PStr s) /\
    forallb isspace s = false /\
    lookup (u "target_language") d = Some target.
Proof.
  destruct request; try discriminate. cbn [valid_request].
  destruct (lookup (u "text") d) as [[| | | |s| |]|] eqn:Et; try discriminate.
  destruct (lookup (u "target_language") d) as [target|] eqn:El;
    try discriminate.
  intros H. exists d, s, target.
  split; [reflexivity | split; [exact Et | split; [|exact El]]].
  now destruct (forallb isspace s).
Qed.

Lemma validate_input_true body r :
  validate_input body = Return (true, r) ->
  r = None /\ valid_request body = true.
Proof.
  intros V.
  destruct (validate_input_returns _ V) as [E | [E | [E | [E | E]]]];
    try discriminate E.
  injection E as ->. split; [reflexivity|]. now apply validate_input_accepts.
Qed.

Lemma valid_request_intro d s target :
  lookup (u "text") d = Some (PStr s) ->
  forallb isspace s = false ->
  lookup (u "target_language") d = Some target ->
  valid_request (PDict d) = true.
Proof. intros H1 H2 H3. cbn [valid_request]. now rewrite H1, H3, H2. Qed.

Lemma provider_call_dict w d s target :
  lookup (u "text") d = Some (PStr s) ->
  lookup (u "target_language") d = Some target ->
  provider_call w (PDict d) =
  translate_text w (PStr s) (source_language_of d) target.
Proof.
  intros H1 H2. unfold provider_call, source_language_of.
  cbn [getitem py_get]. now rewrite H1, H2.
Qed.


(** *** The world after each step *)

Lemma except_clauses_run context e w :
  except_clauses context e w =
  (Return (Some (except_envelope context e)), record (error_record e) w).
Proof.
  unfold except_clauses, except_envelope, error_record.
  destruct (exc_type e); reflexivity.
Qed.

Lemma lambda_handler_run event context w :
  lambda_handler event context w =
  match try_block event (record (entry_record w) (tick w)) with
  | (Return r, w') => (Return r, w')
  | (Raise e, w') =>
      (Return (Some (except_envelope context e)), record (error_record e) w')
  end.
Proof.
  change (lambda_handler event context w)
    with (try_except (try_block event) (except_clauses context)
            (record (entry_record w) (tick w))).
  unfold try_except.
  destruct (try_block event (record (entry_record w) (tick w))) as [[r|e] w'].
  - reflexivity.
  - apply except_clauses_run.
Qed.

Lemma try_block_run_decode_fault event e w :
  request_body event = Raise e -> try_block event w = (Raise e, w).
Proof. intros H. unfold try_block, bind, lift. now rewrite H. Qed.

Lemma try_block_run_validation_fault event body e w :
  request_body event = Return body ->
  validate_input body = Raise e ->
  try_block event w = (Raise e, w).
Proof. intros H V. unfold try_block, bind, lift. now rewrite H, V. Qed.

Lemma try_block_run_rejected event body r w :
  request_body event = Return body ->
  validate_input body = Return (false, r) ->
  try_block event w = (Return r, record (rejection_record body) w).
Proof. intros H V. unfold try_block, bind, lift. now rewrite H, V. Qed.

Lemma try_block_run_accepted event d s target w :
  request_body event = Return (PDict d) ->
  lookup (u "text") d = Some (PStr s) ->
  forallb isspace s = false ->
  lookup (u "target_language") d = Some target ->
  try_block event w =
  let w1 := record (translating_record (source_language_of d) target) w in
  match translate_text w (PStr s) (source_language_of d) target with
  | Raise e => (Raise e, w1)
  | Return response =>
      match reply_fields response with
      | Raise e => (Raise e, w1)
      | Return (translated, source, target') =>
          (Return (Some (success_envelope translated source target'
                           (clock w (reads w)))),
           record completed_record (tick w1))
      end
  end.
Proof.
  intros H Ht Hs Hl.
  pose proof (proj2 (validate_input_accepts (PDict d))
                (valid_request_intro _ Ht Hs Hl)) as A.
  unfold try_block, bind, lift. rewrite H, A. cbn [negb].
  cbn [getitem py_get]. rewrite Ht, Hl.
  unfold call_translate_text, logger_info, logger, utcnow, ret, reply_fields.
  cbn [translate_text record]. fold (source_language_of d).
  destruct (translate_text w (PStr s) (source_language_of d) target)
    as [response|e]; [|reflexivity].
  destruct (getitem response (u "TranslatedText")) as [x|e];
    cbn [obind]; [|reflexivity].
  destruct (getitem response (u "SourceLanguageCode")) as [y|e];
    cbn [obind]; [|reflexivity].
  destruct (getitem response (u "TargetLanguageCode")) as [z|e];
    cbn [obind]; [|reflexivity].
  reflexivity.
Qed.

(** What the [try] block returns when it returns: the success envelope of
    a translated valid request, or one of the four rejections. *)
Lemma try_block_returns_cases event w r :
  fst (try_block event w) = Return r ->
  (exists request response translated source target,
     request_body event = Return request /\
     valid_request request = true /\
     provider_call w request = Return response /\
     reply_fields response = Return (translated, source, target) /\
     r = Some (success_envelope translated source target (clock w (reads w))))
  \/ r = Some body_is_empty
  \/ r = Some (missing_field (u "text"))
  \/ r = Some (missing_field (u "target_language"))
  \/ r = Some text_is_blank.
Proof.
  destruct (request_body event) as [body|e] eqn:B.
  2:{ rewrite (try_block_decode_fault _ w B). discriminate. }
  destruct (validate_input body) as [[ok r']|e] eqn:V.
  2:{ rewrite (try_block_validation_fault _ w B V). discriminate. }
  destruct (validate_input_returns _ V) as [E | E].
  - injection E as -> ->.
    pose proof (proj1 (validate_input_accepts body) V) as Hv.
    rewrite (try_block_accepted _ w B Hv).
    destruct (provider_call w body) as [response|] eqn:P; cbn [obind];
      [|discriminate].
    destruct (reply_fields response) as [[[x y] z]|] eqn:F; cbn [obind];
      [|discriminate].
    intros [= <-]. left. exists body, response, x, y, z. auto.
  - assert (ok = false) as ->
      by (destruct E as [E | [E | [E | E]]]; now injection E).
    rewrite (try_block_rejected _ w B V). intros [= <-]. right.
    destruct E as [E | [E | [E | E]]]; injection E as ->; tauto.
Qed.

(** ** Arguments of the provider call *)

(** Lines 67-78. For a valid request the envelope is decided by one
    provider call: its text is the request's [text] as given (not
    stripped), its source language is the request's [source_language] or
    ['auto'] without one, its target language is the request's
    [target_language], whatever value that is. *)
Theorem provider_called_with_request_fields event context w d s target
  (Hbody : request_body event = Return (PDict d))
  (Htext : lookup (u "text") d = Some (PStr s))
  (Hchars : forallb isspace s = false)
  (Htarget : lookup (u "target_language") d = Some target) :
  fst (lambda_handler event context w) =
  match translate_text w (PStr s)
          (match lookup (u "source_language") d with
           | Some source => source
           | None => PStr (u "auto")
           end) target with
  | Raise e => Return (Some (except_envelope context e))
  | Return response =>
      match reply_fields response with
      | Raise e => Return (Some (except_envelope context e))
      | Return (translated, source, target') =>
          Return (Some (success_envelope translated source target'
                          (clock w (S (reads w)))))
      end
  end.
Proof.
  rewrite lambda_handler_run.
  rewrite (try_block_run_accepted _ _ Hbody Htext Hchars Htarget).
  cbn zeta. cbn [translate_text record tick clock reads].
  unfold source_language_of.
  destruct (translate_text w _ _ _) as [response|e]; [|reflexivity].
  destruct (reply_fields response) as [[[x y] z]|e]; reflexivity.
Qed.


(** The body of every envelope is the JSON text of a mapping. *)
Lemma handler_shape_of_body event context w :
  exists env,
    fst (lambda_handler event context w) = Return (Some env) /\
    exists payload, body env = json_dumps (PDict payload).
Proof.
  rewrite lambda_handler_result.
  destruct (fst (try_block event (entered w))) as [r|e] eqn:T.
  - apply try_block_returns_cases in T.
    destruct T as [(request & response & x & y & z & _ & _ & _ & _ & ->)
                  | [-> | [-> | [-> | ->]]]];
      eexists; (split; [reflexivity|]); eexists; reflexivity.
  - eexists. split; [reflexivity|]. unfold except_envelope.
    destruct (exc_type e); eexists; reflexivity.
Qed.

(** ** The shapes of an envelope *)

(** Every envelope the handler returns has one of four shapes: the 200
    envelope with the two headers and the four result fields; a 400 with
    an [error] only; the 400 of the unsupported pair with [error] and
    [detail]; the 500 with [error] and [request_id].  Only the first one
    has headers. *)
Theorem envelope_shapes event context w :
  exists env,
    fst (lambda_handler event context w) = Return (Some env) /\
    ((exists translated source target,
        env = mkEnvelope 200
                (Some [(u "Content-Type", u "application/json");
                       (u "Access-Control-Allow-Origin", u "*")])
                (json_dumps (PDict
                   [(u "translated_text", translated);
                    (u "detected_source_language", source);
                    (u "target_language", target);
                    (u "timestamp", PStr (isoformat (clock w (S (reads w)))))])))
     \/ (exists msg,
           env = mkEnvelope 400 None
                   (json_dumps (PDict [(u "error", PStr msg)])))
     \/ (exists detail,
           env = mkEnvelope 400 None
                   (json_dumps (PDict
                      [(u "error", PStr (u "Unsupported language pair"));
                       (u "detail", PStr detail)])))
     \/ env = mkEnvelope 500 None
                (json_dumps (PDict
                   [(u "error", PStr (u "Internal server error"));
                    (u "request_id",
                     match context with
                     | Some c => PStr (aws_request_id c)
                     | None => PNone
                     end)]))).
Proof.
  rewrite lambda_handler_result.
  destruct (fst (try_block event (entered w))) as [r|e] eqn:T.
  - apply try_block_returns_cases in T.
    destruct T as [(request & response & x & y & z & _ & _ & _ & _ & ->)
                  | [-> | [-> | [-> | ->]]]];
      eexists; (split; [reflexivity|]).
    + left. exists x, y, z. reflexivity.
    + right; left. eexists. reflexivity.
    + right; left. eexists. reflexivity.
    + right; left. eexists. reflexivity.
    + right; left. eexists. reflexivity.
  - eexists. split; [reflexivity|]. unfold except_envelope.
    destruct (exc_type e).
    + right; right; left. eexists. reflexivity.
    + right; left. eexists. reflexivity.
    + right; left. eexists. reflexivity.
    + right; right; right. reflexivity.
    + right; right; right. reflexivity.
    + right; right; right. reflexivity.
    + right; right; right. reflexivity.
Qed.

(** Status 200 is returned only for a valid request whose provider call
    returned a reply with the three fields; the envelope is then built from
    that reply and the second clock reading. *)
Theorem success_only_after_translation event context w env
  (Hrun : fst (lambda_handler event context w) = Return (Some env))
  (Hstatus : statusCode env = 200%Z) :
  exists request response translated source target,
    request_body event = Return request /\
    valid_request request = true /\
    provider_call w request = Return response /\
    reply_fields response = Return (translated, source, target) /\
    env = success_envelope translated source target (clock w (S (reads w))).
Proof.
  rewrite lambda_handler_result in Hrun.
  destruct (fst (try_block event (entered w))) as [r|e] eqn:T.
  - apply try_block_returns_cases in T.
    destruct T as [(request & response & x & y & z & B & V & P & F & ->)
                  | [-> | [-> | [-> | ->]]]];
      injection Hrun as <-; try discriminate Hstatus.
    exists request, response, x, y, z. auto.
  - injection Hrun as <-. exfalso. revert Hstatus.
    unfold except_envelope. destruct (exc_type e); discriminate.
Qed.

(** ** The log, the clock and the provider *)

(** Line 54 and the logger calls. The handler only appends to the log,
    starting with the entry record that holds the first clock reading; it
    reads the clock once or twice and leaves the clock and the provider
    client as they were. *)
Theorem log_grows_from_entry_record event context w :
  exists records,
    logged (snd (lambda_handler event context w)) =
      logged w ++ entry_record w :: records /\
    clock (snd (lambda_handler event context w)) = clock w /\
    translate_text (snd (lambda_handler event context w)) = translate_text w /\
    (reads (snd (lambda_handler event context w)) = S (reads w) \/
     reads (snd (lambda_handler event context w)) = S (S (reads w))).
Proof.
  rewrite lambda_handler_run.
  destruct (request_body event) as [body|e] eqn:B.
  2:{ rewrite (try_block_run_decode_fault _ _ B). cbn.
      rewrite <- app_assoc. eexists. repeat split. now left. }
  destruct (validate_input body) as [[ok r]|e] eqn:V.
  2:{ rewrite (try_block_run_validation_fault _ _ B V). cbn.
      rewrite <- app_assoc. eexists. repeat split. now left. }
  destruct ok.
  - destruct (validate_input_true _ V) as (-> & Hv).
    destruct (valid_request_inv _ Hv) as (d & s & target & -> & Ht & Hs & Hl).
    rewrite (try_block_run_accepted _ _ B Ht Hs Hl). cbn zeta.
    cbn [translate_text record tick clock reads].
    destruct (translate_text w _ _ _) as [response|e].
    2:{ cbn. rewrite <- !app_assoc. eexists. repeat split. now left. }
    destruct (reply_fields response) as [[[x y] z]|e].
    + cbn. rewrite <- !app_assoc. eexists. repeat split. now right.
    + cbn. rewrite <- !app_assoc. eexists. repeat split. now left.
  - rewrite (try_block_run_rejected _ _ B V). cbn.
    rewrite <- app_assoc. eexists. repeat split. now left.
Qed.

(** Lines 61-64. A request that [validate_input] rejects is answered with
    the rejection after exactly two records, the entry record and a
    warning that holds the decoded body, and one clock reading. *)
Theorem rejection_logged_as_warning event context w request rejection
  (Hbody : request_body event = Return request)
  (Hrejected : validate_input request = Return (false, rejection)) :
  lambda_handler event context w =
  (Return rejection,
   mkWorld (clock w) (S (reads w)) (translate_text w)
     (logged w ++ [entry_record w; rejection_record request])).
Proof.
  rewrite lambda_handler_run, (try_block_run_rejected _ _ Hbody Hrejected).
  unfold record, tick. cbn [clock reads translate_text logged].
  now rewrite <- app_assoc.
Qed.

(** Lines 97-130. When the [try] block raises, the last record of the log
    is the error record of the matching clause, which holds [str(e)]; the
    traceback is asked for by the catch-all clause only. *)
Theorem fault_logged_as_error event context w e
  (Hfault : fst (try_block event (entered w)) = Raise e) :
  exists records,
    logged (snd (lambda_handler event context w)) =
      logged w ++ entry_record w :: records ++ [error_record e] /\
    log_level (error_record e) = ERROR /\
    In (Val (PStr (exc_str e))) (log_message (error_record e)) /\
    (exc_info (error_record e) = true <->
     exc_type e <> UnsupportedLanguagePairException /\
     exc_type e <> InvalidRequestException /\
     exc_type e <> JSONDecodeError).
Proof.
  assert (L : exists records,
             logged (snd (lambda_handler event context w)) =
             logged w ++ entry_record w :: records ++ [error_record e]).
  { rewrite lambda_handler_run. change (entered w) with
      (record (entry_record w) (tick w)) in Hfault.
    destruct (request_body event) as [body|e'] eqn:B.
    2:{ rewrite (try_block_run_decode_fault _ _ B) in *. cbn in Hfault.
        injection Hfault as ->. exists []. cbn. now rewrite <- app_assoc. }
    destruct (validate_input body) as [[ok r]|e'] eqn:V.
    2:{ rewrite (try_block_run_validation_fault _ _ B V) in *. cbn in Hfault.
        injection Hfault as ->. exists []. cbn. now rewrite <- app_assoc. }
    destruct ok.
    - destruct (validate_input_true _ V) as (-> & Hv).
      destruct (valid_request_inv _ Hv) as (d & s & target & -> & Ht & Hs & Hl).
      rewrite (try_block_run_accepted _ _ B Ht Hs Hl) in *. cbn zeta in *.
      cbn [translate_text record tick clock reads] in *.
      destruct (translate_text w _ _ _) as [response|e'].
      2:{ cbn in Hfault. injection Hfault as ->. eexists [_]. cbn.
          now rewrite <- !app_assoc. }
      destruct (reply_fields response) as [[[x y] z]|e'].
      + discriminate Hfault.
      + cbn in Hfault. injection Hfault as ->. eexists [_]. cbn.
        now rewrite <- !app_assoc.
    - rewrite (try_block_run_rejected _ _ B V) in Hfault. discriminate Hfault. }
  destruct L as (records & L). exists records.
  split; [exact L|]. unfold error_record.
  destruct (exc_type e); cbn; repeat split; auto; try congruence;
    intros (? & ? & ?); congruence.
Qed.

(** Lines 71, 90 and 94. A translated request leaves exactly three records,
    all at level INFO: the entry record, the languages handed to the
    provider, and the completion; the clock is read twice. *)
Theorem success_logged event context w d s target response translated source target'
  (Hbody : request_body event = Return (PDict d))
  (Htext : lookup (u "text") d = Some (PStr s))
  (Hchars : forallb isspace s = false)
  (Htarget : lookup (u "target_language") d = Some target)
  (Hcall : translate_text w (PStr s) (source_language_of d) target = Return response)
  (Hreply : reply_fields response = Return (translated, source, target')) :
  snd (lambda_handler event context w) =
  mkWorld (clock w) (S (S (reads w))) (translate_text w)
    (logged w ++ [entry_record w;
                  translating_record (source_language_of d) target;
                  completed_record]).
Proof.
  rewrite lambda_handler_run.
  rewrite (try_block_run_accepted _ _ Hbody Htext Hchars Htarget).
  cbn zeta. cbn [translate_text record tick clock reads].
  rewrite Hcall, Hreply. cbn [snd].
  unfold record, tick. cbn [clock reads translate_text logged].
  now rewrite <- !app_assoc.
Qed.

(** The provider is consulted for valid requests only: when the body
    cannot be decoded or is not a valid request, the envelope and the final
    log are the same whatever the provider client is. *)
Theorem provider_not_consulted event context c r l p1 p2
  (Hinvalid : forall request,
      request_body event = Return request -> valid_request request = false) :
  fst (lambda_handler event context (mkWorld c r p1 l)) =
  fst (lambda_handler event context (mkWorld c r p2 l)) /\
  logged (snd (lambda_handler event context (mkWorld c r p1 l))) =
  logged (snd (lambda_handler event context (mkWorld c r p2 l))).
Proof.
  rewrite !lambda_handler_run.
  destruct (request_body event) as [body|e] eqn:B.
  2:{ now rewrite !(try_block_run_decode_fault _ _ B). }
  destruct (validate_input body) as [[ok r']|e] eqn:V.
  2:{ now rewrite !(try_block_run_validation_fault _ _ B V). }
  destruct ok.
  - exfalso. specialize (Hinvalid body eq_refl).
    destruct (validate_input_true _ V) as (_ & Hv). congruence.
  - now rewrite !(try_block_run_rejected _ _ B V).
Qed.

(** Line 58. An event whose body is the JSON text of a value that is not
    itself a string is handled as the event that holds the decoded value:
    same envelope, same world.  (A decoded string would be decoded once
    more.) *)
Theorem encoded_and_decoded_bodies_agree event1 event2 text value context w
  (Hencoded : getitem event1 (u "body") = Return (PStr text))
  (Hdecodes : json_loads text = Return value)
  (Hdecoded : getitem event2 (u "body") = Return value)
  (Hvalue : isinstance_str value = false) :
  lambda_handler event1 context w = lambda_handler event2 context w.
Proof.
  assert (Hsame : request_body event1 = request_body event2).
  { unfold request_body. rewrite Hencoded, Hdecoded. cbn [obind].
    rewrite Hdecodes. now destruct value. }
  rewrite !lambda_handler_run.
  assert (T : forall w', try_block event1 w' = try_block event2 w').
  { intros w'. unfold try_block, bind, lift. now rewrite Hsame. }
  now rewrite T.
Qed.

(** ** [validate_input] on its own *)

(** Lines 19-48. The pair [validate_input] returns is [(True, None)] or
    [(False, e)] with [e] a 400 without headers whose body holds one of the
    four messages; the flag is true exactly when there is no error
    response. *)
Theorem validate_input_result body ok response
  (Hreturn : validate_input body = Return (ok, response)) :
  (ok = true <-> response = None) /\
  (ok = false ->
   exists msg,
     response = Some (mkEnvelope 400 None
                        (json_dumps (PDict [(u "error", PStr msg)]))) /\
     In msg [u "Request body is empty";
             u "Missing required field: text";
             u "Missing required field: target_language";
             u "Text field must be a non-empty string"]).
Proof.
  destruct (validate_input_returns _ Hreturn) as [E | [E | [E | [E | E]]]];
    injection E as -> ->; (split; [split; congruence|]); try discriminate;
    intros _; eexists; (split; [reflexivity|]); cbn [In]; auto.
Qed.

(** Lines 31-40. [validate_input] raises on truthy bodies that are no
    mappings only, and then a [TypeError]: from the membership test on a
    number or [True], or from [body['text']] on a string or a list. *)
Theorem validate_input_faults body e
  (Hraise : validate_input body = Raise e) :
  exc_type e = TypeError /\ truthy body = true /\
  match body with PDict _ => False | _ => True end.
Proof.
  destruct (truthy body) eqn:Ht.
  2:{ rewrite validate_input_falsy in Hraise by assumption. discriminate. }
  destruct body; try discriminate Ht;
    try (destruct (validate_input_scalar _ Ht I) as (e' & E & T);
         rewrite E in Hraise; injection Hraise as <-; auto).
  - revert Hraise. unfold validate_input. rewrite Ht.
    cbn [negb required_fields check_required_fields contains obind].
    destruct (substring_of (u "text") s); cbn [negb obind]; [|discriminate].
    destruct (substring_of (u "target_language") s); cbn [negb obind getitem];
      [|discriminate].
    intros [= <-]. auto.
  - revert Hraise. unfold validate_input. rewrite Ht.
    cbn [negb required_fields check_required_fields contains obind].
    destruct (existsb _ l); cbn [negb obind]; [|discriminate].
    destruct (existsb _ l); cbn [negb obind getitem]; [|discriminate].
    intros [= <-]. auto.
  - rewrite validate_input_dict in Hraise
      by (destruct d; [discriminate | congruence]).
    discriminate.
Qed.

End Coverage.

(** ** The characters of a body *)

Section All_values.

Variable P : pyval -> Prop.
Hypothesis HNone : P PNone.
Hypothesis HBool : forall b, P (PBool b).
Hypothesis HInt : forall z, P (PInt z).
Hypothesis HFloat : forall f, P (PFloat f).
Hypothesis HStr : forall s, P (PStr s).
Hypothesis HList : forall l, Forall P l -> P (PList l).
Hypothesis HDict : forall d, Forall (fun kv => P (snd kv)) d -> P (PDict d).

(** Induction on a value through its lists and mappings. *)
Fixpoint pyval_nested_ind (v : pyval) : P v :=
  match v with
  | PNone => HNone
  | PBool b => HBool b
  | PInt z => HInt z
  | PFloat f => HFloat f
  | PStr s => HStr s
  | PList l =>
      HList ((fix all (l : list pyval) : Forall P l :=
                match l with
                | [] => Forall_nil P
                | x :: r => Forall_cons x (pyval_nested_ind x) (all r)
                end) l)
  | PDict d =>
      HDict ((fix all (d : list (pystr * pyval))
                : Forall (fun kv => P (snd kv)) d :=
                match d with
                | [] => Forall_nil _
                | kv :: r =>
                    Forall_cons kv (pyval_nested_ind (snd kv)) (all r)
                end) d)
  end.

End All_values.

Lemma hex_digit_ascii d : (d < 16)%N -> (hex_digit d < 128)%N.
Proof. unfold hex_digit. destruct (d <? 10)%N; lia. Qed.

Lemma hex4_ascii n : Forall (fun c => (c < 128)%N) (hex4 n).
Proof.
  unfold hex4.
  repeat (constructor; [apply hex_digit_ascii; apply N.mod_lt; lia|]).
  constructor.
Qed.

Lemma escape_char_ascii c : Forall (fun c => (c < 128)%N) (escape_char c).
Proof.
  unfold escape_char.
  repeat match goal with
         | |- context [(c =? ?k)%N] =>
             destruct (c =? k)%N; [repeat (constructor; try lia)|]
         end.
  destruct ((32 <=? c)%N && (c <=? 126)%N) eqn:R.
  - apply andb_true_iff in R. destruct R as [_ R]. apply N.leb_le in R.
    constructor; [lia | constructor].
  - destruct (c <? 65536)%N;
      repeat (apply Forall_app; split); try apply hex4_ascii;
      repeat (constructor; try lia).
Qed.

Lemma encode_basestring_ascii_ascii s :
  Forall (fun c => (c < 128)%N) (encode_basestring_ascii s).
Proof.
  unfold encode_basestring_ascii.
  apply Forall_app; split; [constructor; [lia | constructor]|].
  apply Forall_app; split; [|constructor; [lia | constructor]].
  induction s as [|c s IH]; cbn [flat_map]; [constructor|].
  apply Forall_app; split; [apply escape_char_ascii | exact IH].
Qed.

Lemma string_of_uint_ascii d :
  Forall (fun c => (c < 128)%N) (u (NilEmpty.string_of_uint d)).
Proof.
  induction d; cbn [NilEmpty.string_of_uint]; unfold u in *;
    cbn [list_ascii_of_string map]; constructor; auto; now vm_compute.
Qed.

Lemma int_str_ascii z : Forall (fun c => (c < 128)%N) (int_str z).
Proof.
  unfold int_str, NilZero.string_of_int, NilZero.string_of_uint.
  destruct (Z.to_int z) as [d|d]; [destruct d | destruct d]; unfold u;
    cbn [list_ascii_of_string map NilEmpty.string_of_uint];
    repeat (constructor; [now vm_compute|]);
    try constructor; apply string_of_uint_ascii.
Qed.

Lemma join_items_ascii texts :
  Forall (Forall (fun c => (c < 128)%N)) texts ->
  Forall (fun c => (c < 128)%N) (join_items texts).
Proof.
  induction 1 as [|x r Hx Hr IH]; cbn [join_items]; [constructor|].
  apply Forall_app; split; [exact Hx|].
  destruct r; [constructor|].
  apply Forall_app; split; [|exact IH].
  repeat (constructor; [now vm_compute|]). constructor.
Qed.

Section Bodies.

Context {RT : Runtime}.

Arguments json_dumps : simpl nomatch.

Lemma json_dumps_list l :
  json_dumps (PList l) = u "[" ++ join_items (map json_dumps l) ++ u "]".
Proof.
  cbn [json_dumps]. do 2 f_equal.
  induction l as [|x r IH]; [reflexivity|].
  cbn [map join_items]. rewrite <- IH. now destruct r.
Qed.

Lemma json_dumps_dict d :
  json_dumps (PDict d) =
  u "{" ++ join_items (map (fun kv => encode_basestring_ascii (fst kv) ++ u ": "
                                      ++ json_dumps (snd kv)) d) ++ u "}".
Proof.
  cbn [json_dumps]. do 2 f_equal.
  induction d as [|[k x] r IH]; [reflexivity|].
  cbn [map join_items fst snd]. rewrite <- IH, <- !app_assoc. now destruct r.
Qed.

Lemma json_dumps_ascii :
  (forall f, Forall (fun c => (c < 128)%N) (floatstr f)) ->
  forall v, Forall (fun c => (c < 128)%N) (json_dumps v).
Proof.
  intros Hf v. induction v as [| b | z | f | s | l IH | d IH]
    using pyval_nested_ind.
  - cbn. repeat (constructor; [now vm_compute|]). constructor.
  - destruct b; cbn; repeat (constructor; [now vm_compute|]); constructor.
  - apply int_str_ascii.
  - apply Hf.
  - apply encode_basestring_ascii_ascii.
  - rewrite json_dumps_list.
    apply Forall_app; split; [constructor; [now vm_compute | constructor]|].
    apply Forall_app; split; [|constructor; [now vm_compute | constructor]].
    apply join_items_ascii. induction IH; cbn [map]; constructor; auto.
  - rewrite json_dumps_dict.
    apply Forall_app; split; [constructor; [now vm_compute | constructor]|].
    apply Forall_app; split; [|constructor; [now vm_compute | constructor]].
    apply join_items_ascii. induction IH as [|[k x] r Hx Hr IHr]; cbn [map];
      constructor; auto.
    cbn [fst snd] in *.
    apply Forall_app; split; [apply encode_basestring_ascii_ascii|].
    apply Forall_app; split; [|exact Hx].
    repeat (constructor; [now vm_compute|]). constructor.
Qed.

(** Every call of [json.dumps] keeps the default [ensure_ascii]: whatever
    characters the request, the provider reply, the fault message or the
    request id hold, the body of the envelope holds ASCII characters only,
    provided the float texts do. *)
Theorem body_is_ascii event context w
  (Hfloat : forall f, Forall (fun c => (c < 128)%N) (floatstr f)) :
  exists env,
    fst (lambda_handler event context w) = Return (Some env) /\
    Forall (fun c => (c < 128)%N) (body env).
Proof.
  destruct (handler_shape_of_body event context w) as (env & H & payload & E).
  exists env. split; [exact H|]. rewrite E. now apply json_dumps_ascii.
Qed.

End Bodies.

(** ** The further properties on the fixtures *)

(** The echo shows the arguments: the text with its blanks, ['auto'], and
    the target as given. *)
Lemma provider_called_with_request_fields_witness :
  fst (@lambda_handler test_runtime (PDict [(u "body", PDict padded_request)])
         None (test_world echo_translate)) =
  Return (Some (@success_envelope test_runtime (PStr (u "  Hello "))
                  (PStr (u "auto")) (PInt 7) (test_clock 1))).
Proof.
  apply (@provider_called_with_request_fields test_runtime
           (PDict [(u "body", PDict padded_request)]) None
           (test_world echo_translate) padded_request (u "  Hello ") (PInt 7));
    reflexivity.
Defined.


Lemma success_only_after_translation_witness :
  exists request response translated source target,
    @request_body test_runtime valid_event = Return request /\
    valid_request request = true /\
    provider_call (test_world mock_translate) request = Return response /\
    reply_fields response = Return (translated, source, target) /\
    @success_envelope test_runtime (PStr (161%N :: u "Hola mundo!"))
      (PStr (u "en")) (PStr (u "es")) (test_clock 1) =
    @success_envelope test_runtime translated source target (test_clock 1).
Proof.
  apply (@success_only_after_translation test_runtime valid_event None
           (test_world mock_translate)
           (@success_envelope test_runtime (PStr (161%N :: u "Hola mundo!"))
              (PStr (u "en")) (PStr (u "es")) (test_clock 1)));
    vm_compute; reflexivity.
Defined.

(** [test_missing_required_field]: what is returned and what is logged. *)
Lemma rejection_logged_as_warning_witness :
  @lambda_handler test_runtime invalid_event None (test_world mock_translate) =
  (Return (Some (@missing_field test_runtime (u "target_language"))),
   mkWorld test_clock 1 mock_translate
     [entry_record (test_world mock_translate);
      rejection_record (PDict [(u "text", PStr (u "Hello world!"))])]).
Proof.
  apply (@rejection_logged_as_warning test_runtime invalid_event None
           (test_world mock_translate)
           (PDict [(u "text", PStr (u "Hello world!"))])
           (Some (@missing_field test_runtime (u "target_language"))));
    vm_compute; reflexivity.
Defined.

(** [test_translate_service_error]: the error record asks for the
    traceback. *)
Lemma fault_logged_as_error_witness :
  exists records,
    logged (snd (@lambda_handler test_runtime valid_event (Some test_context)
                   (test_world (failing_translate service_error)))) =
      [] ++ entry_record (test_world (failing_translate service_error))
         :: records ++ [error_record service_error] /\
    log_level (error_record service_error) = ERROR /\
    In (Val (PStr (exc_str service_error)))
       (log_message (error_record service_error)) /\
    (exc_info (error_record service_error) = true <->
     exc_type service_error <> UnsupportedLanguagePairException /\
     exc_type service_error <> InvalidRequestException /\
     exc_type service_error <> JSONDecodeError).
Proof.
  apply (@fault_logged_as_error test_runtime valid_event (Some test_context)
           (test_world (failing_translate service_error)) service_error).
  vm_compute. reflexivity.
Defined.

(** [test_successful_translation]: the world after the call. *)
Lemma success_logged_witness :
  snd (@lambda_handler test_runtime valid_event None (test_world mock_translate)) =
  mkWorld test_clock 2 mock_translate
    [entry_record (test_world mock_translate);
     translating_record (PStr (u "auto")) (PStr (u "es"));
     completed_record].
Proof.
  apply (@success_logged test_runtime valid_event None (test_world mock_translate)
           [(u "text", PStr (u "Hello world!")); (u "target_language", PStr (u "es"))]
           (u "Hello world!") (PStr (u "es")) hola_reply
           (PStr (161%N :: u "Hola mundo!")) (PStr (u "en")) (PStr (u "es")));
    vm_compute; reflexivity.
Defined.

(** The rejection of [invalid_event] with the mock and with a failing
    provider. *)
Lemma provider_not_consulted_witness :
  fst (@lambda_handler test_runtime invalid_event None
         (mkWorld test_clock 0 mock_translate [])) =
  fst (@lambda_handler test_runtime invalid_event None
         (mkWorld test_clock 0 (failing_translate service_error) [])) /\
  logged (snd (@lambda_handler test_runtime invalid_event None
                 (mkWorld test_clock 0 mock_translate []))) =
  logged (snd (@lambda_handler test_runtime invalid_event None
                 (mkWorld test_clock 0 (failing_translate service_error) []))).
Proof.
  apply (@provider_not_consulted test_runtime invalid_event None test_clock 0 []
           mock_translate (failing_translate service_error)).
  intros request H. vm_compute in H. injection H as <-. reflexivity.
Defined.

(** [valid_event] and the event that holds the decoded request. *)
Lemma encoded_and_decoded_bodies_agree_witness :
  @lambda_handler test_runtime valid_event None (test_world mock_translate) =
  @lambda_handler test_runtime (PDict [(u "body", hello_request)]) None
    (test_world mock_translate).
Proof.
  apply (@encoded_and_decoded_bodies_agree test_runtime valid_event
           (PDict [(u "body", hello_request)]) (dumps hello_request)
           hello_request None (test_world mock_translate));
    vm_compute; reflexivity.
Defined.

Lemma validate_input_result_witness :
  (false = true <-> Some (@text_is_blank test_runtime) = None) /\
  (false = false ->
   exists msg,
     Some (@text_is_blank test_runtime) =
     Some (mkEnvelope 400 None
             (@json_dumps test_runtime (PDict [(u "error", PStr msg)]))) /\
     In msg [u "Request body is empty";
             u "Missing required field: text";
             u "Missing required field: target_language";
             u "Text field must be a non-empty string"]).
Proof.
  apply (@validate_input_result test_runtime
           (PDict [(u "text", PStr (u "   ")); (u "target_language", PNone)])).
  vm_compute. reflexivity.
Defined.

(** The body [5], and the string that holds both field names. *)
Lemma validate_input_faults_witness :
  (TypeError = TypeError /\ truthy (PInt 5) = true /\ True) /\
  (TypeError = TypeError /\
   truthy (PStr (u "text target_language")) = true /\ True).
Proof.
  split.
  - apply (@validate_input_faults test_runtime (PInt 5)
             (mkExc TypeError (u "argument of type 'int' is not iterable"))).
    reflexivity.
  - apply (@validate_input_faults test_runtime (PStr (u "text target_language"))
             (mkExc TypeError (u "string indices must be integers"))).
    reflexivity.
Defined.

(** The reply of the mock starts with a character outside ASCII. *)
Lemma body_is_ascii_witness :
  exists env,
    fst (@lambda_handler test_runtime valid_event None
           (test_world mock_translate)) = Return (Some env) /\
    Forall (fun c => (c < 128)%N) (body env).
Proof.
  apply (@body_is_ascii test_runtime valid_event None (test_world mock_translate)).
  intros f. cbn. unfold no_float_str.
  repeat (constructor; [now vm_compute|]). constructor.
Defined.

(** * Contexts, fault texts and JSON texts *)

Section Contexts.

Context {RT : Runtime}.

Lemma except_clauses_any_outcome context e w :
  fst (except_clauses_any context e w) = except_outcome_any context e.
Proof.
  unfold except_clauses_any, except_outcome_any, except_envelope.
  destruct (exc_type e); try reflexivity;
    unfold bind, logger, lift, ret;
    (destruct (context_request_id context) as [o|x]; cbn [obind fst];
     [destruct (serializable o); reflexivity | reflexivity]).
Qed.

(** The handler returns what the [try] block returns, and what the
    [except] clauses answer when the block raises. *)
Lemma lambda_handler_any_result event context w :
  fst (lambda_handler_any event context w) =
  match fst (try_block event (entered w)) with
  | Return r => Return r
  | Raise e => except_outcome_any context e
  end.
Proof.
  change (lambda_handler_any event context w)
    with (try_except (try_block event) (except_clauses_any context) (entered w)).
  unfold try_except.
  destruct (try_block event (entered w)) as [[r|e] w']; cbn [fst].
  - reflexivity.
  - apply except_clauses_any_outcome.
Qed.

(** On [None] and on a [LambdaContext] the two handlers are the same. *)
Lemma lambda_handler_any_agrees event context w :
  lambda_handler_any event (as_object context) w =
  lambda_handler event context w.
Proof.
  change (lambda_handler_any event (as_object context) w)
    with (try_except (try_block event) (except_clauses_any (as_object context))
            (entered w)).
  change (lambda_handler event context w)
    with (try_except (try_block event) (except_clauses context) (entered w)).
  unfold try_except.
  destruct (try_block event (entered w)) as [[r|e] w']; [reflexivity|].
  unfold except_clauses_any, except_clauses.
  destruct (exc_type e); try reflexivity; now destruct context.
Qed.

Lemma except_outcome_any_identified context rid e :
  context_request_id context = Return (Value rid) ->
  exists env, except_outcome_any context e = Return (Some env) /\
              is_error_envelope env.
Proof.
  intros H. unfold except_outcome_any. rewrite H. cbn [obind serializable].
  destruct (exc_type e);
    try (eexists; split; [reflexivity | apply except_envelope_is_error]);
    (eexists; split; [reflexivity|]);
    (split; [right; reflexivity | split; [reflexivity|]]);
    do 2 eexists; split; reflexivity.
Qed.

(** C2, for the contexts the catch-all clause can answer. With a context
    that is falsy ([None]) or whose [aws_request_id] is a value
    [json.dumps] writes, the handler returns an envelope for every event
    and world; when the [try] block raises, whatever the fault, the
    envelope is an error envelope (status 400 or 500, no headers, a JSON
    object with an [error] string), and when it returns, the handler
    returns that envelope. *)
Theorem handler_returns_envelope_for_identified_context event context w rid
  (Hcontext : context_request_id context = Return (Value rid)) :
  exists env,
    fst (lambda_handler_any event context w) = Return (Some env) /\
    (statusCode env = 200%Z \/ is_error_envelope env) /\
    match fst (try_block event (entered w)) with
    | Raise e => is_error_envelope env
    | Return r => r = Some env
    end.
Proof.
  rewrite lambda_handler_any_result.
  destruct (fst (try_block event (entered w))) as [r|e] eqn:T.
  - destruct (try_block_returns _ _ T) as (env & -> & H).
    exists env. split; [reflexivity | split; [exact H | reflexivity]].
  - destruct (except_outcome_any_identified _ e Hcontext) as (env & -> & H).
    exists env. split; [reflexivity | split; [right; exact H | exact H]].
Qed.

(** C5, with the detail as the code writes it. A valid request whose
    provider call raises the unsupported-language-pair fault [e] gets
    status 400, no headers, and a JSON body whose [error] is
    [Unsupported language pair] and whose [detail] is [str(e)]. *)
Theorem unsupported_pair_detail_is_fault_text event context w request e
  (Hbody : request_body event = Return request)
  (Hvalid : valid_request request = true)
  (Hcall : provider_call w request = Raise e)
  (Hpair : exc_type e = UnsupportedLanguagePairException) :
  exists env,
    fst (lambda_handler event context w) = Return (Some env) /\
    statusCode env = 400%Z /\
    headers env = None /\
    body env = json_dumps (PDict [(u "error", PStr (u "Unsupported language pair"));
                                  (u "detail", PStr (exc_str e))]).
Proof.
  rewrite (@unsupported_language_pair RT event context w request e
             Hbody Hvalid Hcall Hpair).
  eexists. split; [reflexivity|]. repeat split.
Qed.

(** A fault leaves the handler from the catch-all clause only: the [try]
    block raised a fault that none of the three named clauses matches, and
    reading the request id off the context raised an [AttributeError] or
    writing it raised a [TypeError]. *)
Theorem handler_raises_only_from_catch_all event context w x
  (Hraise : fst (lambda_handler_any event context w) = Raise x) :
  exists e,
    fst (try_block event (entered w)) = Raise e /\
    exc_type e <> UnsupportedLanguagePairException /\
    exc_type e <> InvalidRequestException /\
    exc_type e <> JSONDecodeError /\
    ((context_request_id context = Raise x /\ exc_type x = AttributeError /\
      obj_truthy context = true) \/
     (exists o, context_request_id context = Return o /\
                serializable o = Raise x /\ exc_type x = TypeError)).
Proof.
  rewrite lambda_handler_any_result in Hraise.
  destruct (fst (try_block event (entered w))) as [r|e] eqn:T;
    [discriminate|].
  exists e. split; [reflexivity|].
  revert Hraise. unfold except_outcome_any.
  destruct (exc_type e); try discriminate;
    (split; [discriminate | split; [discriminate | split; [discriminate|]]]);
    revert Hraise; unfold context_request_id;
    (destruct (obj_truthy context) eqn:B; cbn [obind serializable];
     [|discriminate]);
    (destruct context as [v | cls truth attrs]; cbn [get_aws_request_id];
     [ cbn [obind]; intros [= <-]; left; auto
     | destruct (attribute (u "aws_request_id") attrs) as [[v | c t a]|];
       cbn [obind serializable];
       [ discriminate
       | intros [= <-]; right; eexists; split; [reflexivity | split; reflexivity]
       | intros [= <-]; left; auto ] ]).
Qed.

End Contexts.

(** ** On the fixtures *)

(** [test_translate_service_error] with the context of the test. *)
Lemma handler_returns_envelope_for_identified_context_witness :
  exists env,
    fst (@lambda_handler_any test_runtime valid_event
           (as_object (Some test_context))
           (test_world (failing_translate service_error))) = Return (Some env) /\
    (statusCode env = 200%Z \/ @is_error_envelope test_runtime env) /\
    @is_error_envelope test_runtime env.
Proof.
  apply (@handler_returns_envelope_for_identified_context test_runtime
           valid_event (as_object (Some test_context))
           (test_world (failing_translate service_error))
           (PStr (u "test-request-id"))).
  reflexivity.
Defined.

(** C2 as stated fails here. [test_translate_service_error] with
    [context=object()], and with a mock whose request id is a mock: the
    catch-all clause raises, and the fault leaves the handler. *)
Lemma context_without_request_id_raises :
  fst (@lambda_handler_any test_runtime valid_event bare_object
         (test_world (failing_translate service_error))) =
    Raise (mkExc AttributeError
             (u "'object' object has no attribute 'aws_request_id'")) /\
  fst (@lambda_handler_any test_runtime valid_event bare_mock
         (test_world (failing_translate service_error))) =
    Raise (mkExc TypeError (u "Object of type MagicMock is not JSON serializable")).
Proof. split; vm_compute; reflexivity. Qed.

(** C3 fails on the code here. A [json.JSONDecodeError] raised inside the
    provider call of a valid request is answered by the clause written for
    the decoding of the body: status 400 with
    [Invalid JSON in request body], and the record
    [Invalid JSON in request].  Any other provider fault, as the one of
    [test_translate_service_error], gets the 500 envelope. *)
Lemma provider_decode_fault_reported_as_invalid_json :
  @request_body test_runtime valid_event = Return hello_request /\
  valid_request hello_request = true /\
  provider_call (test_world (failing_translate decode_fault)) hello_request =
    Raise decode_fault /\
  @lambda_handler test_runtime valid_event (Some test_context)
    (test_world (failing_translate decode_fault)) =
    (Return (Some (mkEnvelope 400 None
       (dumps (PDict [(u "error", PStr (u "Invalid JSON in request body"))])))),
     mkWorld test_clock 1 (failing_translate decode_fault)
       [entry_record (test_world (failing_translate decode_fault));
        translating_record (PStr (u "auto")) (PStr (u "es"));
        mkLog ERROR [Lit "Invalid JSON in request: ";
                     Val (PStr (u "Expecting value"))] false]) /\
  fst (@lambda_handler test_runtime valid_event (Some test_context)
         (test_world (failing_translate service_error))) =
    Return (Some (mkEnvelope 500 None
      (dumps (PDict [(u "error", PStr (u "Internal server error"));
                     (u "request_id", PStr (u "test-request-id"))])))).
Proof. repeat split; vm_compute; reflexivity. Qed.

(** [context=object()] *)
Lemma handler_raises_only_from_catch_all_witness :
  exists e,
    fst (@try_block test_runtime valid_event
           (entered (test_world (failing_translate service_error)))) = Raise e /\
    exc_type e <> UnsupportedLanguagePairException /\
    exc_type e <> InvalidRequestException /\
    exc_type e <> JSONDecodeError /\
    ((context_request_id bare_object =
        Raise (mkExc AttributeError
                 (u "'object' object has no attribute 'aws_request_id'")) /\
      AttributeError = AttributeError /\ obj_truthy bare_object = true) \/
     (exists o, context_request_id bare_object = Return o /\
                serializable o =
                  Raise (mkExc AttributeError
                           (u "'object' object has no attribute 'aws_request_id'")) /\
                AttributeError = TypeError)).
Proof.
  apply (@handler_raises_only_from_catch_all test_runtime valid_event bare_object
           (test_world (failing_translate service_error))
           (mkExc AttributeError
              (u "'object' object has no attribute 'aws_request_id'"))).
  vm_compute. reflexivity.
Defined.

(** [test_unsupported_language_pair] with the fault of the client. *)
Lemma unsupported_pair_detail_is_fault_text_witness :
  exists env,
    fst (@lambda_handler test_runtime valid_event None
           (test_world (failing_translate
              (unsupported_pair_error (u "Unsupported language pair: en to xx"))))) =
      Return (Some env) /\
    statusCode env = 400%Z /\
    headers env = None /\
    body env =
      dumps (PDict
        [(u "error", PStr (u "Unsupported language pair"));
         (u "detail",
          PStr (u "An error occurred (UnsupportedLanguagePairException) when calling the TranslateText operation: Unsupported language pair: en to xx"))]).
Proof.
  apply (@unsupported_pair_detail_is_fault_text test_runtime valid_event None
           (test_world (failing_translate
              (unsupported_pair_error (u "Unsupported language pair: en to xx"))))
           hello_request
           (unsupported_pair_error (u "Unsupported language pair: en to xx")));
    vm_compute; reflexivity.
Defined.

(** C5 as stated fails here: the detail is the sentence of the client,
    not the provider's message. *)
Lemma detail_is_not_the_provider_message :
  @request_body test_runtime valid_event = Return hello_request /\
  valid_request hello_request = true /\
  provider_call
    (test_world (failing_translate
       (unsupported_pair_error (u "Unsupported language pair: en to xx"))))
    hello_request =
    Raise (unsupported_pair_error (u "Unsupported language pair: en to xx")) /\
  fst (@lambda_handler test_runtime valid_event None
         (test_world (failing_translate
            (unsupported_pair_error (u "Unsupported language pair: en to xx"))))) =
    Return (Some (mkEnvelope 400 None
      (dumps (PDict
        [(u "error", PStr (u "Unsupported language pair"));
         (u "detail",
          PStr (client_error_str (u "UnsupportedLanguagePairException")
                  (u "Unsupported language pair: en to xx")
                  (u "TranslateText")))])))) /\
  client_error_str (u "UnsupportedLanguagePairException")
    (u "Unsupported language pair: en to xx") (u "TranslateText")
  <> u "Unsupported language pair: en to xx".
Proof.
  repeat split; try (vm_compute; reflexivity). vm_compute. discriminate.
Qed.

(** C8 as stated fails here: [NaN] and [[NaN]] are no JSON texts, yet
    [json.loads] decodes them, and the bodies get the 500 of the catch-all
    clause and the 400 of the missing field. *)
Lemma undecodable_is_narrower_than_invalid :
  is_json_text (u "NaN") = false /\
  fst (@lambda_handler test_runtime (PDict [(u "body", PStr (u "NaN"))]) None
         (test_world mock_translate)) =
    Return (Some (mkEnvelope 500 None
      (dumps (PDict [(u "error", PStr (u "Internal server error"));
                     (u "request_id", PNone)])))) /\
  is_json_text (u "[NaN]") = false /\
  fst (@lambda_handler test_runtime (PDict [(u "body", PStr (u "[NaN]"))]) None
         (test_world mock_translate)) =
    Return (Some (mkEnvelope 400 None
      (dumps (PDict [(u "error", PStr (u "Missing required field: text"))])))) /\
  mkEnvelope 500 None
    (dumps (PDict [(u "error", PStr (u "Internal server error"));
                   (u "request_id", PNone)])) <>
  mkEnvelope 400 None
    (dumps (PDict [(u "error", PStr (u "Invalid JSON in request body"))])) /\
  mkEnvelope 400 None
    (dumps (PDict [(u "error", PStr (u "Missing required field: text"))])) <>
  mkEnvelope 400 None
    (dumps (PDict [(u "error", PStr (u "Invalid JSON in request body"))])).
Proof.
  repeat split; try (vm_compute; reflexivity); vm_compute; discriminate.
Qed.

(** The recognizer on the fixtures and on texts outside the grammar. *)
Example json_texts_of_the_fixtures :
  is_json_text (dumps hello_request) = true /\
  is_json_text (removelast (dumps hello_request)) = false /\
  is_json_text (u " [1, -20.5e+3, true, null, {}] ") = true /\
  is_json_text (u "01") = false /\
  is_json_text (u "[1,]") = false /\
  is_json_text (u "Infinity") = false /\
  is_json_text (u "-Infinity") = false.
Proof. repeat split. Qed.
